(** * surveillance/sentry.go: the error-reporting shim

    A shallow embedding of package [surveillance] (file
    [surveillance/sentry.go]) and the proofs of its contract.

    Go code is modelled in a state-and-panic monad [Go] over a [World] that
    holds everything the package can observe or change: the local log, the
    hubs of the tracking SDK with their scope stacks, the record of every
    event handed to an SDK client, and the answers the SDK's transport will
    give.  A Go pointer that may be [nil] is an [option]; a Go
    [map[string]T] is a [gmap string T]. *)

From Stdlib Require Import ZArith DecimalString.
From Stdlib Require QArith.
From stdpp Require Import base option list strings gmap.

Local Open Scope string_scope.

(** ** Values of the collaborating packages *)

(** A Go [float64] setting, as a rational. *)
Definition float64 := QArith_base.Q.

(** [sentry.EventID] is a Go string type. *)
Definition EventID := string.

(** [p != nil] for a Go pointer or interface value [p]. *)
Definition non_nil {A} (p : option A) : bool :=
  match p with Some _ => true | None => false end.

(** gRPC result codes ([google.golang.org/grpc/codes]). *)
Module codes.
Inductive Code :=
| OK | Canceled | Unknown | InvalidArgument | DeadlineExceeded | NotFound
| AlreadyExists | PermissionDenied | ResourceExhausted | FailedPrecondition
| Aborted | OutOfRange | Unimplemented | Internal | Unavailable | DataLoss
| Unauthenticated.

Definition String (c : Code) : string :=
  match c with
  | OK => "OK" | Canceled => "Canceled" | Unknown => "Unknown"
  | InvalidArgument => "InvalidArgument"
  | DeadlineExceeded => "DeadlineExceeded" | NotFound => "NotFound"
  | AlreadyExists => "AlreadyExists"
  | PermissionDenied => "PermissionDenied"
  | ResourceExhausted => "ResourceExhausted"
  | FailedPrecondition => "FailedPrecondition" | Aborted => "Aborted"
  | OutOfRange => "OutOfRange" | Unimplemented => "Unimplemented"
  | Internal => "Internal" | Unavailable => "Unavailable"
  | DataLoss => "DataLoss" | Unauthenticated => "Unauthenticated"
  end.
End codes.

(** Modelled from the spec: package [vcore/errors] is not among the sources.
  A ReportableError is "any propagated failure value, optionally carrying:
  a set of key-value extras, a set of key-value tags, and an ignorable
  flag".  A Go [error] is such a value; [err_status] is the gRPC status an
  error made by [status.Errorf] carries.  A nil [error] is [None] of
  [option error]. *)
Record error := mkError {
err_msg : string;
err_ignore : bool;
err_extras : option (gmap string string);
err_tags : gmap string string;
err_status : option (codes.Code * string)
}.

Module errors.
Definition Ignore (err : error) : bool := err_ignore err.
Definition Extras (err : error) : option (gmap string string) := err_extras err.
Definition Tags (err : error) : gmap string string := err_tags err.
End errors.

(** What a Go [panic] carries (an [interface{}]): an error, a string or an
  integer.  From Go 1.21 on [recover] never yields nil for a panic under
  way, hence no nil case. *)
Inductive PanicValue :=
| PVError (e : error)
| PVString (s : string)
| PVInt (n : Z).

(** [fmt.Sprintf("%s", r)]: an error prints its [Error()], a string itself,
  and an integer the bad-verb form. *)
Definition Sprintf_s (r : PanicValue) : string :=
match r with
| PVError e => err_msg e
| PVString s => s
| PVInt n => "%!s(int=" ++ NilZero.string_of_int (Z.to_int n) ++ ")"
end.

(** The runtime error of [*p] at a nil [p]. *)
Definition nil_dereference : error :=
mkError "runtime error: invalid memory address or nil pointer dereference"
        false None ∅ None.

Module status.
(** [status.Errorf(c, "%s", r)]; as in gRPC, code [OK] gives a nil error. *)
Definition Errorf (c : codes.Code) (msg : string) : option error :=
  match c with
  | codes.OK => None
  | _ => Some (mkError ("rpc error: code = " ++ codes.String c ++ " desc = " ++ msg)
                       false None ∅ (Some (c, msg)))
  end.
End status.

(** ** The tracking SDK's state *)

Record ClientOptions := mkClientOptions {
  Dsn : string;
  AttachStacktrace : bool;
  EnableTracing : bool;
  TracesSampleRate : float64;
  Release : string;
  SampleRate : float64;
  Environment : string
}.

Record Client := mkClient { cl_options : ClientOptions }.

Record Scope := mkScope {
  sc_tags : gmap string string;
  sc_extras : gmap string string;
  sc_contexts : gmap string (gmap string string)
}.

(** A hub: the client bound to it, its scope stack (top first, never
    empty) and the identifier of the last event it sent. *)
Record HubState := mkHub {
  hub_client : option Client;
  hub_scope : Scope;
  hub_saved : list Scope;
  hub_lastEventID : EventID
}.

(** A [*sentry.Hub]: 0 is the process-wide hub [sentry.CurrentHub()], [S i]
    the [i]-th hub made by [Clone]. *)
Definition HubRef := nat.
Definition CurrentHub : HubRef := 0.

(** What is handed to a client for capture: an error (possibly nil) or a
    recovered panic value. *)
Inductive Exception :=
| ExcError (err : option error)
| ExcPanic (r : PanicValue).

(** One call that reached a client: the hub, the exception, the scope
    applied to the event, and the identifier when the event went to the
    transport ([None]: dropped by sampling). *)
Record Event := mkEvent {
  ev_hub : HubRef;
  ev_exception : Exception;
  ev_scope : Scope;
  ev_id : option EventID
}.

(** A line of the local log ([vcore/log]). *)
Inductive LogEntry :=
| LogError (err : error)
| LogErrorf (err : error) (msg : string)
| LogWarnf (msg : string).

(** The process environment as [vcore/env] reads it: for each variable that
    is set, its value at the type asked for. *)
Record Environ := mkEnviron {
  env_string : gmap string string;
  env_float : gmap string float64;
  env_bool : gmap string bool
}.

(** The state of the process.  [w_transport] holds the answers the SDK's
    transport will give, [w_init_ok] says which options the SDK takes at
    [Init], [w_default_release] is the release the SDK works out for the
    process when it is given none, and [w_app] is what the application
    itself has written. *)
Record World := mkWorld {
  w_log : list LogEntry;
  w_events : list Event;
  w_current : HubState;
  w_clones : list HubState;
  w_transport : list (option EventID);
  w_env : Environ;
  w_init_ok : ClientOptions -> bool;
  w_app : list string;
  w_default_release : string
}.

Definition hubs (w : World) : list HubState := w_current w :: w_clones w.

Definition set_hub (h : HubRef) (s : HubState) (w : World) : World :=
  match h with
  | 0 => mkWorld (w_log w) (w_events w) s (w_clones w) (w_transport w)
                 (w_env w) (w_init_ok w) (w_app w) (w_default_release w)
  | S i => mkWorld (w_log w) (w_events w) (w_current w) (<[i:=s]> (w_clones w))
                   (w_transport w) (w_env w) (w_init_ok w) (w_app w) (w_default_release w)
  end.

Definition add_log (l : LogEntry) (w : World) : World :=
  mkWorld (w_log w ++ [l]) (w_events w) (w_current w) (w_clones w)
          (w_transport w) (w_env w) (w_init_ok w) (w_app w) (w_default_release w).

Definition add_event (e : Event) (w : World) : World :=
  mkWorld (w_log w) (w_events w ++ [e]) (w_current w) (w_clones w)
          (tail (w_transport w)) (w_env w) (w_init_ok w) (w_app w) (w_default_release w).

Definition add_clone (s : HubState) (w : World) : World :=
  mkWorld (w_log w) (w_events w) (w_current w) (w_clones w ++ [s])
          (w_transport w) (w_env w) (w_init_ok w) (w_app w) (w_default_release w).

(** ** The monad of Go code: a state and a possible panic *)

Inductive outcome (A : Type) : Type :=
| Returned (a : A)
| Panicked (r : PanicValue).
Arguments Returned {A} a.
Arguments Panicked {A} r.

Definition Go (A : Type) : Type := World -> outcome A * World.

Definition ret {A} (a : A) : Go A := fun w => (Returned a, w).

Definition bind {A B} (m : Go A) (k : A -> Go B) : Go B :=
  fun w => match m w with
           | (Returned a, w') => k a w'
           | (Panicked r, w') => (Panicked r, w')
           end.

(** [panic(r)] *)
Definition panic {A} (r : PanicValue) : Go A := fun w => (Panicked r, w).

(** [defer func() { if r := recover(); r != nil { ... } }()] around [body]:
    when [body] panics with [r] the deferred function [onpanic r] decides
    the outcome; when [body] returns, [recover()] is nil and nothing runs. *)
Definition defer_recover {A} (body : Go A) (onpanic : PanicValue -> Go A) : Go A :=
  fun w => match body w with
           | (Returned a, w') => (Returned a, w')
           | (Panicked r, w') => onpanic r w'
           end.

(** [defer f()] with [f] free of [recover]: [f] runs on both exits. *)
Definition defer_always {A} (body : Go A) (f : Go unit) : Go A :=
  fun w => match body w with
           | (Returned a, w') =>
               match f w' with
               | (Returned _, w'') => (Returned a, w'')
               | (Panicked r, w'') => (Panicked r, w'')
               end
           | (Panicked r, w') =>
               match f w' with
               | (Returned _, w'') => (Panicked r, w'')
               | (Panicked r', w'') => (Panicked r', w'')
               end
           end.

Declare Scope go_scope.
Delimit Scope go_scope with go.
Notation "x <- c1 ;; c2" := (bind c1 (fun x => c2))
  (at level 100, c1 at next level, right associativity) : go_scope.
Notation "c1 ;; c2" := (bind c1 (fun _ => c2))
  (at level 100, right associativity) : go_scope.
Local Open Scope go_scope.

(** ** The collaborators: logging, environment, the tracking SDK *)

(** Modelled from the spec: package [vcore/log], not among the sources, is
    the "logging collaborator exposing leveled log calls"; each call adds a
    line to the local log. *)
Module log.
Definition Error (err : error) : Go unit :=
  fun w => (Returned tt, add_log (LogError err) w).
Definition Errorf (err : error) (msg : string) : Go unit :=
  fun w => (Returned tt, add_log (LogErrorf err msg) w).
Definition Warnf (msg : string) : Go unit :=
  fun w => (Returned tt, add_log (LogWarnf msg) w).
End log.

(** Modelled from the spec: package [vcore/env], not among the sources,
    reads a setting from the process environment, with a default for a
    variable that is not set. *)
Module env.
Definition String (key def : string) : Go string :=
  fun w => (Returned (default def (env_string (w_env w) !! key)), w).
Definition Float (key : string) (def : float64) : Go float64 :=
  fun w => (Returned (default def (env_float (w_env w) !! key)), w).
Definition Bool (key : string) (def : bool) : Go bool :=
  fun w => (Returned (default def (env_bool (w_env w) !! key)), w).
End env.

(** [os.Getenv]: the empty string when the variable is not set. *)
Definition os_Getenv (key : string) : Go string := env.String key EmptyString.

(** A [context.Context]: its request-scoped values and, under the SDK's
    key, the hub it carries. *)
Record Context := mkContext {
  ctx_values : gmap string string;
  ctx_hub : option HubRef
}.

(** Package [github.com/getsentry/sentry-go], as far as the shim uses it. *)
Module sentry.

Definition empty_scope : Scope := mkScope ∅ ∅ ∅.
Definition empty_hub : HubState := mkHub None empty_scope [] EmptyString.

Definition with_scope (f : Scope -> Scope) (s : HubState) : HubState :=
  mkHub (hub_client s) (f (hub_scope s)) (hub_saved s) (hub_lastEventID s).

(** A [*sentry.Scope] handed to a [WithScope] callback is the top scope of
    the hub it was pushed on. *)
Definition ScopeRef := HubRef.

Definition update_scope (sc : ScopeRef) (f : Scope -> Scope) : Go unit :=
  fun w => match hubs w !! sc with
           | Some s => (Returned tt, set_hub sc (with_scope f s) w)
           | None => (Returned tt, w)
           end.

Definition SetContext (sc : ScopeRef) (key : string) (value : gmap string string) : Go unit :=
  update_scope sc (fun s =>
    mkScope (sc_tags s) (sc_extras s) (<[key:=value]> (sc_contexts s))).

Definition SetExtras (sc : ScopeRef) (extras : gmap string string) : Go unit :=
  update_scope sc (fun s =>
    mkScope (sc_tags s) (extras ∪ sc_extras s) (sc_contexts s)).

Definition SetTags (sc : ScopeRef) (tags : gmap string string) : Go unit :=
  update_scope sc (fun s =>
    mkScope (tags ∪ sc_tags s) (sc_extras s) (sc_contexts s)).

Definition PushScope (h : HubRef) : Go unit :=
  fun w => match hubs w !! h with
           | Some s => (Returned tt,
                        set_hub h (mkHub (hub_client s) (hub_scope s)
                                         (hub_scope s :: hub_saved s)
                                         (hub_lastEventID s)) w)
           | None => (Returned tt, w)
           end.

(** The last scope of a hub is never popped. *)
Definition PopScope (h : HubRef) : Go unit :=
  fun w => match hubs w !! h with
           | Some s =>
               match hub_saved s with
               | below :: rest =>
                   (Returned tt,
                    set_hub h (mkHub (hub_client s) below rest (hub_lastEventID s)) w)
               | [] => (Returned tt, w)
               end
           | None => (Returned tt, w)
           end.

(** [hub.WithScope(f)]: push a copy of the top scope, run [f] on it, pop it
    on the way out.  [f] answers the value it leaves in the variables it
    closes over. *)
Definition hub_WithScope {A} (h : HubRef) (f : ScopeRef -> Go A) : Go A :=
  PushScope h ;; defer_always (f h) (PopScope h).

(** [sentry.WithScope(f)] works on the process-wide hub. *)
Definition WithScope {A} (f : ScopeRef -> Go A) : Go A :=
  hub_WithScope CurrentHub f.

(** The path every capture takes.  A hub without a client answers nil and
    nothing reaches a client.  Otherwise the event, with the hub's top
    scope, is handed to the client; the transport's next answer is the
    event's identifier, or nil when the event is dropped (sampled out). *)
Definition capture (h : HubRef) (x : Exception) : Go (option EventID) :=
  fun w => match hubs w !! h with
           | Some s =>
               match hub_client s with
               | Some _ =>
                   let id := mjoin (head (w_transport w)) in
                   let s' := mkHub (hub_client s) (hub_scope s) (hub_saved s)
                                   (default (hub_lastEventID s) id) in
                   (Returned id,
                    set_hub h s' (add_event (mkEvent h x (hub_scope s) id) w))
               | None => (Returned None, w)
               end
           | None => (Returned None, w)
           end.

(** [hub.CaptureException(err)] *)
Definition hub_CaptureException (h : HubRef) (err : option error) : Go (option EventID) :=
  capture h (ExcError err).

(** [sentry.CaptureException(err)] *)
Definition CaptureException (err : option error) : Go (option EventID) :=
  hub_CaptureException CurrentHub err.

(** The path of a recovered panic: as [capture], but the hub does not
    keep the identifier as its last event's. *)
Definition capture_recovered (h : HubRef) (x : Exception) : Go (option EventID) :=
  fun w => match hubs w !! h with
           | Some s =>
               match hub_client s with
               | Some _ =>
                   let id := mjoin (head (w_transport w)) in
                   (Returned id, add_event (mkEvent h x (hub_scope s) id) w)
               | None => (Returned None, w)
               end
           | None => (Returned None, w)
           end.

(** [hub.RecoverWithContext(ctx, r)] *)
Definition hub_RecoverWithContext (h : HubRef) (ctx : Context) (r : PanicValue)
  : Go (option EventID) :=
  capture_recovered h (ExcPanic r).

(** [hub.Clone()]: a new hub with the same client and a copy of the top
    scope. *)
Definition hub_Clone (h : HubRef) : Go HubRef :=
  fun w => let s := default empty_hub (hubs w !! h) in
           (Returned (length (hubs w)),
            add_clone (mkHub (hub_client s) (hub_scope s) [] EmptyString) w).

(** [hub.Client()] *)
Definition hub_Client (h : HubRef) : Go (option Client) :=
  fun w => (Returned (hubs w !! h ≫= hub_client), w).

Definition GetHubFromContext (ctx : Context) : option HubRef := ctx_hub ctx.

Definition SetHubOnContext (ctx : Context) (h : HubRef) : Context :=
  mkContext (ctx_values ctx) (Some h).

Definition init_failure (o : ClientOptions) : error :=
  mkError ("[Sentry] DsnParseError: " ++ Dsn o) false None ∅ None.

(** The client the SDK makes of the options it is given.  It settles
    three of them itself: a sample rate of zero stands for the default, 1;
    without a release it takes the one it works out for the process;
    without an environment it takes the variable [SENTRY_ENVIRONMENT]. *)
Definition new_client (o : ClientOptions) (w : World) : Client :=
  mkClient
    (mkClientOptions
       (Dsn o) (AttachStacktrace o) (EnableTracing o) (TracesSampleRate o)
       (if decide (Release o = EmptyString)
        then w_default_release w else Release o)
       (if QArith_base.Qeq_bool (SampleRate o) (QArith_base.Qmake 0 1)
        then QArith_base.Qmake 1 1 else SampleRate o)
       (if decide (Environment o = EmptyString)
        then default EmptyString (env_string (w_env w) !! "SENTRY_ENVIRONMENT")
        else Environment o)).

(** [sentry.Init(options)]: makes a client and binds it to the process-wide
    hub, or fails.  The shim calls it with an endpoint only. *)
Definition Init (o : ClientOptions) : Go (option error) :=
  fun w => if w_init_ok w o
           then (Returned None,
                 set_hub CurrentHub
                   (mkHub (Some (new_client o w)) (hub_scope (w_current w))
                          (hub_saved (w_current w))
                          (hub_lastEventID (w_current w))) w)
           else (Returned (Some (init_failure o)), w).

End sentry.

(** ** The request-handling frameworks *)

(** [net/http] *)
Module http.
Definition ResponseWriter := nat.
Record Request := mkRequest { URL : string; req_ctx : Context }.
Definition HandlerFunc := ResponseWriter -> Request -> Go unit.
(** The interface [http.Handler]; a [HandlerFunc] serves by calling
    itself. *)
Record Handler := mkHandler { ServeHTTP : ResponseWriter -> Request -> Go unit }.
End http.

(** [github.com/julienschmidt/httprouter] *)
Module httprouter.
Definition Params := list (string * string).
Definition Handle := http.ResponseWriter -> http.Request -> Params -> Go unit.
End httprouter.

(** [google.golang.org/grpc].  An [interface{}] request, response or
    service value is a possibly nil payload. *)
Module grpc.
Definition any := option string.
Record UnaryServerInfo := mkUnaryServerInfo { unary_FullMethod : string }.
Record StreamServerInfo := mkStreamServerInfo { stream_FullMethod : string }.

(** A server stream: one made by the framework, or the wrapper of package
    [vcore/sentry] around a stream, with a context of its own that its
    [Context()] answers. *)
Inductive ServerStream :=
| Stream (id : nat) (ctx : Context)
| Wrapped (inner : ServerStream) (WrappedContext : Context).

(** [stream.Context()] *)
Definition stream_Context (s : ServerStream) : Context :=
  match s with
  | Stream _ ctx => ctx
  | Wrapped _ ctx => ctx
  end.

Definition UnaryHandler := Context -> any -> Go (any * option error).
Definition UnaryServerInterceptor :=
  Context -> any -> UnaryServerInfo -> UnaryHandler -> Go (any * option error).
Definition StreamHandler := any -> ServerStream -> Go (option error).
Definition StreamServerInterceptor :=
  any -> ServerStream -> StreamServerInfo -> StreamHandler -> Go (option error).
End grpc.

(** Package [vcore/sentry], imported as [sentryWrapper]; it is not among
    the sources. *)
Module sentryWrapper.

(** Modelled from the spec: the HTTP-framework handler adapter, made from
    the SDK's options ([sentryhttp.Options], of which the shim sets
    [Repanic]). *)
Record Handler := mkHandler { Repanic_http : bool }.

Definition New (repanic : bool) : Handler := mkHandler repanic.

(** Modelled from the spec: the adapter's [HandleFunc] wraps the given
    handler "so that any panic raised while serving a request is
    intercepted, reported (with re-panic per the underlying SDK's
    configured policy), and otherwise simply call through".  As the SDK's
    own HTTP adapter does, it serves the request under a session: the hub
    on the request's context, or else a clone of the process-wide hub, put
    on the context of the request the handler gets, and the panic is
    reported on that hub. *)
Definition HandleFunc (h : Handler) (handler : http.HandlerFunc) : http.HandlerFunc :=
  fun rw r =>
    let ctx := http.req_ctx r in
    hub <- match sentry.GetHubFromContext ctx with
           | Some hub => ret hub
           | None => sentry.hub_Clone CurrentHub
           end ;;
    let ctx := sentry.SetHubOnContext ctx hub in
    defer_recover (handler rw (http.mkRequest (http.URL r) ctx))
      (fun p => sentry.hub_RecoverWithContext hub ctx p ;;
                if Repanic_http h then panic p else ret tt).

(** Modelled from the spec: the same for the path-parameterized router's
    handle function. *)
Definition HandleHttpRouter (h : Handler) (handler : httprouter.Handle) : httprouter.Handle :=
  fun rw r ps =>
    let ctx := http.req_ctx r in
    hub <- match sentry.GetHubFromContext ctx with
           | Some hub => ret hub
           | None => sentry.hub_Clone CurrentHub
           end ;;
    let ctx := sentry.SetHubOnContext ctx hub in
    defer_recover (handler rw (http.mkRequest (http.URL r) ctx) ps)
      (fun p => sentry.hub_RecoverWithContext hub ctx p ;;
                if Repanic_http h then panic p else ret tt).

(** Modelled from the spec: the interceptors' options, "re-panics (if
    configured to do so)" and "the should-report policy (a predicate over
    error severity/class)". *)
Record Options := mkOptions {
  Repanic : bool;
  ReportOn : option error -> bool
}.

(** Modelled from the spec: an option of the interceptors, a change to
    their [Options]. *)
Definition Option := Options -> Options.

(** Modelled from the spec: [WithRepanic(b)] is the option that configures
    whether a recovered panic is raised again. *)
Definition WithRepanic (b : bool) : Option :=
  fun o => mkOptions b (ReportOn o).

(** Modelled from the spec: [BuildOptions(ff...)] applies the given
    options, in order, to the package's defaults. *)
Definition BuildOptions (defaults : Options) (ff : list Option) : Options :=
  fold_left (fun o f => f o) ff defaults.

(** Modelled from the spec: "the stream handle itself is wrapped to expose
    the updated context to downstream reads/writes".  The wrapper starts
    with the stream's own context. *)
Definition WrapServerStream (stream : grpc.ServerStream) : grpc.ServerStream :=
  grpc.Wrapped stream (grpc.stream_Context stream).

(** [wrapped.WrappedContext = ctx] *)
Definition set_WrappedContext (wrapped : grpc.ServerStream) (ctx : Context) : grpc.ServerStream :=
  match wrapped with
  | grpc.Wrapped inner _ => grpc.Wrapped inner ctx
  | grpc.Stream id c => grpc.Stream id c
  end.

End sentryWrapper.

(** ** Package [surveillance] *)

Record Sentry := mkSentry {
  client : option Client;
  handler : option sentryWrapper.Handler
}.

Definition InitSentry (release : string) : Go Sentry :=
  dsn <- env.String "SENTRY_DSN" EmptyString ;;
  sampleRate <- env.Float "SENTRY_SAMPLING" (QArith_base.Qmake 1 1) ;;
  release <- (if decide (release = EmptyString)
              then env.String "SENTRY_RELEASE" EmptyString
              else ret release) ;;
  enableTracing <- env.Bool "SENTRY_TRACING" false ;;
  tracesSampleRate <- env.Float "SENTRY_TRACES_SAMPLE_RATE" (QArith_base.Qmake 0 1) ;;
  if decide (dsn ≠ EmptyString) then
    environment <- os_Getenv "ENVIRONMENT" ;;
    err <- sentry.Init (mkClientOptions dsn true enableTracing tracesSampleRate
                                        release sampleRate environment) ;;
    match err with
    | Some _ =>
        log.Warnf ("Could not initialize sentry with DSN: " ++ dsn) ;;
        ret (mkSentry None None)
    | None =>
        c <- sentry.hub_Client CurrentHub ;;
        ret (mkSentry c (Some (sentryWrapper.New true)))
    end
  else
    log.Warnf ("Could not initialize sentry with DSN: " ++ dsn) ;;
    ret (mkSentry None None).

(** [SentryClient]: [InitSentry] with an empty release, run once when the
    package loads. *)
Definition SentryClient : Go Sentry := InitSentry EmptyString.

Definition captured_msg (eventID : EventID) : string :=
  "Error captured in sentry with the event ID `" ++ eventID ++ "`".

(** [new(sentry.EventID)]: a pointer to an empty identifier. *)
Definition new_EventID : option EventID := Some EmptyString.

Definition Capture (wrapper : Sentry) (err : option error) (_panic : bool) : Go EventID :=
  let eventID := new_EventID in
  eventID <-
    match err with
    | Some e =>
        eventID <-
          (if non_nil (client wrapper) && negb (errors.Ignore e) then
             sentry.WithScope (fun scope =>
               match errors.Extras e with
               | Some extras =>
                   sentry.SetContext scope "extras" extras ;;
                   sentry.SetExtras scope extras
               | None => ret tt
               end ;;
               sentry.SetTags scope (errors.Tags e) ;;
               eventID <- sentry.CaptureException (Some e) ;;
               match eventID with
               | Some id => log.Errorf e (captured_msg id)
               | None => ret tt
               end ;;
               ret eventID)
           else
             (log.Error e ;;
              ret eventID)) ;;
        (if _panic then panic (PVError e) else ret tt) ;;
        ret eventID
    | None => ret eventID
    end ;;
  match eventID with
  | Some id => ret id
  | None => ret EmptyString
  end.

Definition CaptureWithContext (wrapper : Sentry) (c : Context) (err : option error)
    (_panic : bool) : Go EventID :=
  let eventID := new_EventID in
  eventID <-
    match err with
    | Some e =>
        eventID <-
          (if non_nil (client wrapper) && negb (errors.Ignore e) then
             match sentry.GetHubFromContext c with
             | Some hub =>
                 sentry.WithScope (fun scope =>
                   match errors.Extras e with
                   | Some extras =>
                       sentry.SetContext scope "extras" extras ;;
                       sentry.SetExtras scope extras
                   | None => ret tt
                   end ;;
                   sentry.SetTags scope (errors.Tags e)) ;;
                 eventID <- sentry.hub_CaptureException hub (Some e) ;;
                 match eventID with
                 | Some id => log.Errorf e (captured_msg id)
                 | None => ret tt
                 end ;;
                 ret eventID
             | None =>
                 Capture wrapper (Some e) _panic ;;
                 ret eventID
             end
           else
             (log.Error e ;;
              ret eventID)) ;;
        (if _panic then panic (PVError e) else ret tt) ;;
        ret eventID
    | None => ret eventID
    end ;;
  match eventID with
  | Some id => ret id
  | None => panic (PVError nil_dereference)
  end.

Definition HandleFunc (wrapper : Sentry) (handler : http.HandlerFunc) : http.HandlerFunc :=
  match wrapper with
  | {| handler := Some h |} => sentryWrapper.HandleFunc h handler
  | {| handler := None |} => handler
  end.

Definition HandleHttpRouter (wrapper : Sentry) (handler : httprouter.Handle) : httprouter.Handle :=
  match wrapper with
  | {| handler := Some h |} => sentryWrapper.HandleHttpRouter h handler
  | {| handler := None |} => handler
  end.

Definition SentryMiddleware (wrapper : Sentry) (next : http.Handler) : http.Handler :=
  http.mkHandler (HandleFunc wrapper (fun w r => http.ServeHTTP next w r)).

(** The two interceptor factories.  [defaults] stands for the option
    defaults of package [vcore/sentry], which is not among the sources.

    The deferred function of an interceptor reads the results as they are
    when the panic arrives.  Only the RPC handler can panic here (the SDK's
    calls return), so these are still the zero values. *)
Section Interceptors.
Variable defaults : sentryWrapper.Options.

Definition UnaryServerInterceptor (wrapper : Sentry) : grpc.UnaryServerInterceptor :=
  let opts := sentryWrapper.BuildOptions defaults [sentryWrapper.WithRepanic false] in
  fun ctx req info handler =>
    hc <- match sentry.GetHubFromContext ctx with
          | Some hub => ret (hub, ctx)
          | None =>
              hub <- sentry.hub_Clone CurrentHub ;;
              ret (hub, sentry.SetHubOnContext ctx hub)
          end ;;
    let hub := fst hc in
    let ctx := snd hc in
    defer_recover
      (res <- handler ctx req ;;
       (if sentryWrapper.ReportOn opts (snd res)
        then sentry.hub_CaptureException hub (snd res) ;; ret tt
        else ret tt) ;;
       ret res)
      (fun r =>
         sentry.hub_RecoverWithContext hub ctx r ;;
         if sentryWrapper.Repanic opts
         then panic r
         else ret (None, status.Errorf codes.Internal (Sprintf_s r))).

Definition StreamServerInterceptor (wrapper : Sentry) : grpc.StreamServerInterceptor :=
  let opts := sentryWrapper.BuildOptions defaults [sentryWrapper.WithRepanic false] in
  fun srv stream info handler =>
    let ctx := grpc.stream_Context stream in
    hc <- match sentry.GetHubFromContext ctx with
          | Some hub => ret (hub, ctx)
          | None =>
              hub <- sentry.hub_Clone CurrentHub ;;
              ret (hub, sentry.SetHubOnContext ctx hub)
          end ;;
    let hub := fst hc in
    let ctx := snd hc in
    defer_recover
      (let wrapped := sentryWrapper.WrapServerStream stream in
       let wrapped := sentryWrapper.set_WrappedContext wrapped ctx in
       err <- handler srv wrapped ;;
       (if sentryWrapper.ReportOn opts err
        then sentry.hub_CaptureException hub err ;; ret tt
        else ret tt) ;;
       ret err)
      (fun r =>
         sentry.hub_RecoverWithContext hub ctx r ;;
         if sentryWrapper.Repanic opts
         then panic r
         else
           let _ := status.Errorf codes.Internal (Sprintf_s r) in
           ret None).

End Interceptors.

(** ** The vocabulary of the contract *)

(** Whether [Capture] and [CaptureWithContext] go to the SDK at all: the
    reporter is enabled and the error is not ignorable. *)
Definition reports (wrapper : Sentry) (e : error) : bool :=
  non_nil (client wrapper) && negb (errors.Ignore e).

(** From [w] to [w'] the error was logged locally, sans event identifier,
    and nothing reached a client or the transport. *)
Definition local_only (e : error) (w w' : World) : Prop :=
  w_log w' = (w_log w ++ [LogError e])%list /\
  w_events w' = w_events w /\
  w_transport w' = w_transport w.

(** The session of a call, in the words of the design: the one its context
    carries is reused; without one, the process-wide default is cloned and
    attached to the context. *)
Definition session_attached (ctx : Context) (w : World)
    (hub : HubRef) (ctx' : Context) (w' : World) : Prop :=
  match sentry.GetHubFromContext ctx with
  | Some h0 => hub = h0 /\ ctx' = ctx /\ w' = w
  | None =>
      sentry.hub_Clone CurrentHub w = (Returned hub, w') /\
      ctx' = sentry.SetHubOnContext ctx hub
  end.

(** ** Sample calls *)

Definition sample_options : ClientOptions :=
  mkClientOptions "https://key@sentry.example/1" true false
                  (QArith_base.Qmake 0 1) "v1" (QArith_base.Qmake 1 1) "prod".
Definition sample_client : Client := mkClient sample_options.

Definition enabled_hub : HubState :=
  mkHub (Some sample_client) sentry.empty_scope [] EmptyString.

(** A process whose reporter is enabled and whose transport will give the
    listed answers; [request_hubs] are the sessions of requests under way. *)
Definition enabled_world (request_hubs : list HubState)
    (answers : list (option EventID)) : World :=
  mkWorld [] [] enabled_hub request_hubs answers (mkEnviron ∅ ∅ ∅)
          (fun _ => true) [] EmptyString.

(** A process started without an endpoint setting. *)
Definition unconfigured_world : World :=
  mkWorld [] [] sentry.empty_hub [] [] (mkEnviron ∅ ∅ ∅) (fun _ => true) []
          EmptyString.

Definition enabled_reporter : Sentry :=
  mkSentry (Some sample_client) (Some (sentryWrapper.New true)).
Definition disabled_reporter : Sentry := mkSentry None None.

Definition boom : error :=
  mkError "boom" false None {["component" := "x"]} None.
Definition benign : error := mkError "not found" true None ∅ None.

Definition bare_context : Context := mkContext ∅ None.
Definition session_context : Context := mkContext ∅ (Some 1).

Definition report_always : sentryWrapper.Options :=
  sentryWrapper.mkOptions false (fun _ => true).

Definition panicking_unary : grpc.UnaryHandler :=
  fun _ _ => panic (PVString "handler failed").
Definition panicking_stream : grpc.StreamHandler :=
  fun _ _ => panic (PVString "handler failed").

Definition sample_unary_info : grpc.UnaryServerInfo :=
  grpc.mkUnaryServerInfo "/svc/Get".
Definition sample_stream_info : grpc.StreamServerInfo :=
  grpc.mkStreamServerInfo "/svc/Watch".
Definition sample_stream : grpc.ServerStream := grpc.Stream 7 bare_context.

(** The layers of a hub that decide what its events carry and where they
    go: the client and the scope stack. *)
Definition hub_layers (s : HubState) : option Client * Scope * list Scope :=
  (hub_client s, hub_scope s, hub_saved s).

(** A process with only the endpoint setting, which the SDK takes or not. *)
Definition configured_world (dsn : string) (accepted : bool) : World :=
  mkWorld [] [] sentry.empty_hub [] []
          (mkEnviron {["SENTRY_DSN" := dsn]} ∅ ∅) (fun _ => accepted) []
          EmptyString.

Definition quiet_handler : http.HandlerFunc := fun _ _ => ret tt.
Definition failing_unary : grpc.UnaryHandler :=
  fun _ _ => ret (None, Some boom).
Definition failing_stream : grpc.StreamHandler :=
  fun _ _ => ret (Some boom).

(** The scope of an event [Capture] sends: the error's tags and extras set
    on a copy of the scope [s] of the process-wide hub. *)
Definition error_scope (e : error) (s : Scope) : Scope :=
  match errors.Extras e with
  | Some extras =>
      mkScope (errors.Tags e ∪ sc_tags s) (extras ∪ sc_extras s)
              (<["extras":=extras]> (sc_contexts s))
  | None => mkScope (errors.Tags e ∪ sc_tags s) (sc_extras s) (sc_contexts s)
  end.

(** The world after a hub's client took an event: the event is on record
    with the transport's answer [id], which the hub remembers when it is an
    identifier, and the answer is used up. *)
Definition sent (h : HubRef) (s : HubState) (x : Exception) (sc : Scope)
    (id : option EventID) (w : World) : World :=
  set_hub h (mkHub (hub_client s) (hub_scope s) (hub_saved s)
                   (default (hub_lastEventID s) id))
          (add_event (mkEvent h x sc id) w).

(** The one case in which [CaptureWithContext] is left with a nil
    identifier: a non-nil error that is to be reported, a session on the
    context, and a capture on that session that answers nil. *)
Definition dropped_on_session (wrapper : Sentry) (c : Context)
    (err : option error) (w : World) : Prop :=
  exists e hub,
    err = Some e /\ reports wrapper e = true /\
    sentry.GetHubFromContext c = Some hub /\
    fst (sentry.hub_CaptureException hub (Some e) w) = Returned None.

(** * Proofs *)

(** ** Running Go code symbolically *)

Ltac go_unfold :=
  unfold Capture, CaptureWithContext, new_EventID,
    sentry.WithScope, sentry.hub_WithScope, sentry.CaptureException,
    sentry.hub_CaptureException, sentry.hub_RecoverWithContext,
    sentry.SetContext, sentry.SetExtras, sentry.SetTags, sentry.update_scope,
    sentry.PushScope, sentry.PopScope, sentry.capture,
    sentry.capture_recovered, sentry.hub_Clone,
    log.Error, log.Errorf, log.Warnf,
    defer_always, defer_recover, bind, ret, panic in *.

Ltac go_step :=
  match goal with
  | |- context [match ?x with _ => _ end] =>
      match type of x with
      | option _ => destruct x eqn:?
      | list _ => destruct x eqn:?
      | bool => destruct x eqn:?
      end
  end.

Ltac go_eval := go_unfold; cbn; repeat (go_step; cbn); try reflexivity.

(** ** [Capture] and [CaptureWithContext] *)

Section CaptureFacts.
Variable wrapper : Sentry.

Lemma add_log_local_only e w : local_only e w (add_log (LogError e) w).
Proof. repeat split. Qed.

(** A disabled reporter or an ignorable error: the local log only. *)
Lemma Capture_local e p w :
  reports wrapper e = false ->
  Capture wrapper (Some e) p w =
    (if p then Panicked (PVError e) else Returned EmptyString,
     add_log (LogError e) w).
Proof.
  unfold reports. intros H. unfold Capture, bind. rewrite H.
  destruct p; reflexivity.
Qed.

Lemma CaptureWithContext_local c e p w :
  reports wrapper e = false ->
  CaptureWithContext wrapper c (Some e) p w =
    (if p then Panicked (PVError e) else Returned EmptyString,
     add_log (LogError e) w).
Proof.
  unfold reports. intros H. unfold CaptureWithContext, bind. rewrite H.
  destruct p; reflexivity.
Qed.

(** On a non-nil error [Capture] makes its report, which takes the world to
    some [w'] whatever the flag, and then panics or returns by the flag. *)
Lemma Capture_shape e w :
  exists id w', forall p,
    Capture wrapper (Some e) p w =
      (if p then Panicked (PVError e) else Returned id, w').
Proof.
  destruct (reports wrapper e) eqn:H.
  - unfold reports in H.
    assert (exists oid w1, forall p,
      Capture wrapper (Some e) p w =
        (if p then Panicked (PVError e)
         else Returned (default EmptyString oid), w1))
      as (oid & w1 & E); [|eauto].
    unfold Capture. unfold bind at 1 2. rewrite H.
    destruct (sentry.WithScope _ w) as [[oid|r] w1] eqn:E.
    + exists oid, w1. intros []; cbn; [reflexivity|]. destruct oid; reflexivity.
    + exfalso. revert E. go_eval; discriminate.
  - exists EmptyString, (add_log (LogError e) w). intros p.
    apply Capture_local, H.
Qed.

(** Without a session on the context [CaptureWithContext] leaves the world
    as [Capture] does and panics when [Capture] does; what it returns is
    the empty identifier, not the one of [Capture]. *)
Lemma CaptureWithContext_fallback c e w :
  sentry.GetHubFromContext c = None ->
  exists id w', forall p,
    Capture wrapper (Some e) p w =
      (if p then Panicked (PVError e) else Returned id, w') /\
    CaptureWithContext wrapper c (Some e) p w =
      (if p then Panicked (PVError e) else Returned EmptyString, w').
Proof.
  intros Hc. destruct (reports wrapper e) eqn:H.
  - destruct (Capture_shape e w) as (id & w' & E).
    exists id, w'. intros p. split; [apply E|].
    unfold reports in H. unfold CaptureWithContext.
    unfold bind at 1 2. rewrite H, Hc. unfold bind at 1. rewrite (E p).
    destruct p; reflexivity.
  - exists EmptyString, (add_log (LogError e) w). intros p.
    rewrite Capture_local, CaptureWithContext_local by exact H. done.
Qed.

End CaptureFacts.

(** C8.  [Capture] with a nil error is a no-op for both values of the panic
    flag: it logs nothing, hands nothing to the SDK, does not panic (the
    world is left as it was) and returns an empty identifier. *)
Theorem Capture_nil_is_noop (wrapper : Sentry) (p : bool) (w : World) :
  Capture wrapper None p w = (Returned EmptyString, w).
Proof. reflexivity. Qed.

(** C4, as stated, fails: with the panic flag set, [Capture] on an
    ignorable error returns no identifier at all, it panics. *)
Lemma ignorable_with_panic_flag_does_not_return :
  errors.Ignore benign = true /\
  fst (Capture enabled_reporter (Some benign) true (enabled_world [] [Some "abc"]))
    = Panicked (PVError benign) /\
  fst (Capture enabled_reporter (Some benign) true (enabled_world [] [Some "abc"]))
    <> Returned EmptyString.
Proof. repeat split. discriminate. Qed.

(** C4, amended.  For every ignorable error, every reporter, every context
    and every value of the panic flag, [Capture] and [CaptureWithContext]
    log the error locally and hand nothing to a client or to the transport;
    with the flag false they return an empty identifier, with the flag true
    they re-raise the error. *)
Theorem ignorable_is_logged_never_sent (wrapper : Sentry) (c : Context)
    (e : error) (p : bool) (w : World) :
  errors.Ignore e = true ->
  let r1 := Capture wrapper (Some e) p w in
  let r2 := CaptureWithContext wrapper c (Some e) p w in
  fst r1 = (if p then Panicked (PVError e) else Returned EmptyString) /\
  fst r2 = (if p then Panicked (PVError e) else Returned EmptyString) /\
  local_only e w (snd r1) /\
  local_only e w (snd r2).
Proof.
  intros Hi r1 r2. subst r1 r2.
  assert (reports wrapper e = false) as H.
  { unfold reports. rewrite Hi. apply andb_false_r. }
  rewrite Capture_local, CaptureWithContext_local by exact H.
  cbn. auto using add_log_local_only.
Qed.

Lemma ignorable_is_logged_never_sent_witness :
  errors.Ignore benign = true /\
  let w := enabled_world [enabled_hub] [Some "abc"] in
  let r1 := Capture enabled_reporter (Some benign) true w in
  let r2 := CaptureWithContext enabled_reporter session_context (Some benign) true w in
  fst r1 = Panicked (PVError benign) /\
  fst r2 = Panicked (PVError benign) /\
  local_only benign w (snd r1) /\
  local_only benign w (snd r2).
Proof.
  split; [reflexivity|].
  apply (ignorable_is_logged_never_sent enabled_reporter session_context
           benign true (enabled_world [enabled_hub] [Some "abc"])).
  reflexivity.
Defined.

(** C2 fails on the code.  The context carries no session, the reporter is
    enabled and the event is sent with identifier [abc]: [Capture] returns
    [abc], [CaptureWithContext] makes the same report, drops the result of
    its call to [Capture] and returns the empty identifier. *)
Lemma CaptureWithContext_drops_identifier :
  let w := enabled_world [] [Some "abc"] in
  sentry.GetHubFromContext bare_context = None /\
  fst (Capture enabled_reporter (Some boom) false w) = Returned "abc" /\
  fst (CaptureWithContext enabled_reporter bare_context (Some boom) false w)
    = Returned EmptyString /\
  snd (CaptureWithContext enabled_reporter bare_context (Some boom) false w)
    = snd (Capture enabled_reporter (Some boom) false w).
Proof. vm_compute. repeat split. Qed.

(** C3 fails on the code.  The context carries a session, the reporter is
    enabled, the error is to be reported and the event is sampled out: the
    session's capture answers nil and [CaptureWithContext], with the panic
    flag false, faults on [*eventID]. *)
Lemma CaptureWithContext_nil_dereference :
  let w := enabled_world [enabled_hub] [None] in
  sentry.GetHubFromContext session_context = Some 1 /\
  fst (CaptureWithContext enabled_reporter session_context (Some boom) false w)
    = Panicked (PVError nil_dereference) /\
  fst (Capture enabled_reporter (Some boom) false w) = Returned EmptyString.
Proof. vm_compute. repeat split. Qed.

(** ** The disabled reporter *)

(** [InitSentry] never fails, and what it makes is either disabled on both
    counts or enabled on both. *)
Lemma InitSentry_cases release w :
  exists wrapper w',
    InitSentry release w = (Returned wrapper, w') /\
    (wrapper = mkSentry None None \/
     exists c h, wrapper = mkSentry (Some c) (Some h)).
Proof.
  unfold InitSentry, os_Getenv, env.String, env.Float, env.Bool,
    sentry.Init, sentry.hub_Client, log.Warnf, bind, ret.
  cbn. destruct (decide (release = EmptyString)); cbn;
    (destruct (decide (_ ≠ EmptyString)); cbn;
     [destruct (w_init_ok w _); cbn|]); eauto 10.
Qed.

Lemma InitSentry_disabled release w wrapper w' :
  InitSentry release w = (Returned wrapper, w') ->
  client wrapper = None ->
  wrapper = mkSentry None None.
Proof.
  intros Hi Hc.
  destruct (InitSentry_cases release w) as (wr & w1 & E & [->|(c & h & ->)]);
    rewrite E in Hi; injection Hi as <- <-; [reflexivity|discriminate].
Qed.

(** Without an endpoint setting the reporter is disabled and a warning is
    logged. *)
Lemma InitSentry_without_endpoint release w :
  default EmptyString (env_string (w_env w) !! "SENTRY_DSN") = EmptyString ->
  InitSentry release w =
    (Returned (mkSentry None None),
     add_log (LogWarnf "Could not initialize sentry with DSN: ") w).
Proof.
  intros H.
  unfold InitSentry, env.String, env.Float, env.Bool, log.Warnf, bind, ret.
  cbn. rewrite H. destruct (decide (release = EmptyString)); reflexivity.
Qed.

(** C5, as stated, fails: the reporter of a process without an endpoint
    setting is disabled, and its [Capture] with the panic flag set returns
    no identifier, it panics with the error. *)
Lemma disabled_with_panic_flag_does_not_return :
  fst (InitSentry EmptyString unconfigured_world) = Returned disabled_reporter /\
  client disabled_reporter = None /\
  fst (Capture disabled_reporter (Some boom) true unconfigured_world)
    = Panicked (PVError boom) /\
  fst (Capture disabled_reporter (Some boom) true unconfigured_world)
    <> Returned EmptyString.
Proof. repeat split. discriminate. Qed.

(** C5, amended.  When the reporter [InitSentry] made is disabled (its
    client handle is absent), [Capture] returns an empty identifier for
    every error when the panic flag is false and for a nil error under
    either flag; on a non-nil error with the flag true it re-raises the
    error.  [HandleFunc] and [HandleHttpRouter] return the handler they are
    given. *)
Theorem disabled_reporter_passes_through (release : string) (w0 : World)
    (wrapper : Sentry) (w1 : World) :
  InitSentry release w0 = (Returned wrapper, w1) ->
  client wrapper = None ->
  (forall err w, fst (Capture wrapper err false w) = Returned EmptyString) /\
  (forall p w, fst (Capture wrapper None p w) = Returned EmptyString) /\
  (forall e w, fst (Capture wrapper (Some e) true w) = Panicked (PVError e)) /\
  (forall h : http.HandlerFunc, HandleFunc wrapper h = h) /\
  (forall h : httprouter.Handle, HandleHttpRouter wrapper h = h).
Proof.
  intros Hi Hc. rewrite (InitSentry_disabled _ _ _ _ Hi Hc).
  repeat split; try reflexivity.
  intros [e|] w; reflexivity.
Qed.

Lemma disabled_reporter_passes_through_witness :
  InitSentry EmptyString unconfigured_world =
    (Returned disabled_reporter, snd (InitSentry EmptyString unconfigured_world)) /\
  client disabled_reporter = None /\
  (forall err w, fst (Capture disabled_reporter err false w) = Returned EmptyString) /\
  (forall p w, fst (Capture disabled_reporter None p w) = Returned EmptyString) /\
  (forall e w, fst (Capture disabled_reporter (Some e) true w) = Panicked (PVError e)) /\
  (forall h : http.HandlerFunc, HandleFunc disabled_reporter h = h) /\
  (forall h : httprouter.Handle, HandleHttpRouter disabled_reporter h = h).
Proof.
  split; [reflexivity|]. split; [reflexivity|].
  apply (disabled_reporter_passes_through EmptyString unconfigured_world
           disabled_reporter (snd (InitSentry EmptyString unconfigured_world)));
    reflexivity.
Defined.

(** ** The interceptors *)

(** The SDK's capture always returns. *)
Lemma capture_returns h x w :
  exists id, sentry.capture h x w = (Returned id, snd (sentry.capture h x w)).
Proof.
  unfold sentry.capture.
  destruct (hubs w !! h) as [s|]; [destruct (hub_client s)|]; eauto.
Qed.

Lemma session_attached_total ctx w :
  exists hub ctx' w', session_attached ctx w hub ctx' w'.
Proof.
  unfold session_attached.
  destruct (sentry.GetHubFromContext ctx) as [h0|]; eauto 10.
Qed.

Lemma session_attached_carries ctx w hub ctx' w' :
  session_attached ctx w hub ctx' w' ->
  sentry.GetHubFromContext ctx' = Some hub.
Proof.
  unfold session_attached.
  destruct (sentry.GetHubFromContext ctx) as [h0|] eqn:E.
  - intros (-> & -> & _). exact E.
  - intros (_ & ->). reflexivity.
Qed.

(** A clone of the process-wide hub is a hub that was not there before; it
    has the default hub's client and top scope, and the default hub is left
    as it was. *)
Lemma Clone_is_fresh_copy w hub w' :
  sentry.hub_Clone CurrentHub w = (Returned hub, w') ->
  hubs w !! hub = None /\
  hubs w' !! hub =
    Some (mkHub (hub_client (w_current w)) (hub_scope (w_current w)) [] EmptyString) /\
  w_current w' = w_current w.
Proof.
  unfold sentry.hub_Clone. intros [= <- <-]. cbn. repeat split.
  - apply lookup_ge_None_2. lia.
  - by apply list_lookup_middle.
Qed.

Lemma recovered_returns h x w :
  exists id,
    sentry.capture_recovered h x w =
      (Returned id, snd (sentry.capture_recovered h x w)).
Proof.
  unfold sentry.capture_recovered.
  destruct (hubs w !! h) as [s|]; [destruct (hub_client s)|]; eauto.
Qed.

(** The tail of both interceptors once the handler has answered: the SDK
    call made there returns. *)
Ltac after_handler hub :=
  unfold sentry.hub_CaptureException, sentry.hub_RecoverWithContext;
  match goal with
  | |- context [sentry.capture hub ?x ?w] =>
      let id := fresh "id" in
      destruct (capture_returns hub x w) as [id ->]
  | |- context [sentry.capture_recovered hub ?x ?w] =>
      let id := fresh "id" in
      destruct (recovered_returns hub x w) as [id ->]
  end;
  reflexivity.

Section InterceptorFacts.
Variable defaults : sentryWrapper.Options.
Variable wrapper : Sentry.

Lemma opts_Repanic :
  sentryWrapper.Repanic
    (sentryWrapper.BuildOptions defaults [sentryWrapper.WithRepanic false]) = false.
Proof. reflexivity. Qed.

(** What a unary call comes to, by the handler's answer on the context with
    the session. *)
Lemma unary_run ctx req info handler w hub ctx' w' :
  session_attached ctx w hub ctx' w' ->
  UnaryServerInterceptor defaults wrapper ctx req info handler w =
    match handler ctx' req w' with
    | (Returned res, w1) =>
        (Returned res,
         if sentryWrapper.ReportOn defaults (snd res)
         then snd (sentry.hub_CaptureException hub (snd res) w1)
         else w1)
    | (Panicked r, w1) =>
        (Returned (None, status.Errorf codes.Internal (Sprintf_s r)),
         snd (sentry.hub_RecoverWithContext hub ctx' r w1))
    end.
Proof.
  unfold session_attached, UnaryServerInterceptor.
  destruct (sentry.GetHubFromContext ctx) as [h0|].
  - intros (-> & -> & ->). unfold bind at 1. cbn.
    unfold defer_recover, bind.
    destruct (handler ctx req w) as [[res|r] w1]; cbn.
    + destruct (sentryWrapper.ReportOn defaults res.2); [|reflexivity].
      after_handler h0.
    + after_handler h0.
  - intros (Hc & ->). unfold bind at 1. unfold bind at 1. rewrite Hc. cbn.
    unfold defer_recover, bind.
    destruct (handler _ req w') as [[res|r] w1]; cbn.
    + destruct (sentryWrapper.ReportOn defaults res.2); [|reflexivity].
      after_handler hub.
    + after_handler hub.
Qed.

(** The same for a streaming call; the handler is given the stream wrapped
    with the context that carries the session.  A recovered panic comes to
    a nil error. *)
Lemma stream_run srv stream info handler w hub ctx' w' :
  session_attached (grpc.stream_Context stream) w hub ctx' w' ->
  StreamServerInterceptor defaults wrapper srv stream info handler w =
    match handler srv (grpc.Wrapped stream ctx') w' with
    | (Returned err, w1) =>
        (Returned err,
         if sentryWrapper.ReportOn defaults err
         then snd (sentry.hub_CaptureException hub err w1)
         else w1)
    | (Panicked r, w1) =>
        (Returned None, snd (sentry.hub_RecoverWithContext hub ctx' r w1))
    end.
Proof.
  unfold session_attached, StreamServerInterceptor.
  destruct (sentry.GetHubFromContext (grpc.stream_Context stream)) as [h0|].
  - intros (-> & -> & ->). unfold bind at 1. cbn.
    unfold defer_recover, bind.
    destruct (handler srv _ w) as [[err|r] w1]; cbn.
    + destruct (sentryWrapper.ReportOn defaults err); [|reflexivity].
      after_handler h0.
    + after_handler h0.
  - intros (Hc & ->). unfold bind at 1. unfold bind at 1. rewrite Hc. cbn.
    unfold defer_recover, bind.
    destruct (handler srv _ w') as [[err|r] w1]; cbn.
    + destruct (sentryWrapper.ReportOn defaults err); [|reflexivity].
      after_handler hub.
    + after_handler hub.
Qed.

(** A streaming call whose handler panics is answered with a nil error. *)
Lemma stream_panic_swallowed srv stream info handler w hub ctx' w' r w1 :
  session_attached (grpc.stream_Context stream) w hub ctx' w' ->
  handler srv (grpc.Wrapped stream ctx') w' = (Panicked r, w1) ->
  StreamServerInterceptor defaults wrapper srv stream info handler w =
    (Returned None, snd (sentry.hub_RecoverWithContext hub ctx' r w1)).
Proof. intros Hs Hp. rewrite (stream_run _ _ _ _ _ _ _ _ Hs), Hp. reflexivity. Qed.

End InterceptorFacts.

(** C6.  For every unary call whose handler panics, on the context that
    carries the call's session, with a value [r]: the interceptor made by
    [UnaryServerInterceptor] (which disables repanic) recovers, and returns
    to the caller a nil response and an error of classification [Internal]
    whose message is [r] printed with the verb [%s]. *)
Theorem unary_panic_becomes_internal (defaults : sentryWrapper.Options)
    (wrapper : Sentry) (ctx : Context) (req : grpc.any)
    (info : grpc.UnaryServerInfo) (handler : grpc.UnaryHandler) (w : World)
    (hub : HubRef) (ctx' : Context) (w' : World) (r : PanicValue) (w1 : World) :
  session_attached ctx w hub ctx' w' ->
  handler ctx' req w' = (Panicked r, w1) ->
  exists err,
    fst (UnaryServerInterceptor defaults wrapper ctx req info handler w)
      = Returned (None, Some err) /\
    err_status err = Some (codes.Internal, Sprintf_s r) /\
    err_msg err = "rpc error: code = Internal desc = " ++ Sprintf_s r.
Proof.
  intros Hs Hp. rewrite (unary_run _ _ _ _ _ _ _ _ _ _ Hs), Hp.
  cbn. eauto.
Qed.

Lemma unary_panic_becomes_internal_witness :
  let w := enabled_world [] [Some "abc"] in
  let ctx' := sentry.SetHubOnContext bare_context 1 in
  let w' := snd (sentry.hub_Clone CurrentHub w) in
  session_attached bare_context w 1 ctx' w' /\
  panicking_unary ctx' None w' = (Panicked (PVString "handler failed"), w') /\
  exists err,
    fst (UnaryServerInterceptor report_always enabled_reporter bare_context
           None sample_unary_info panicking_unary w)
      = Returned (None, Some err) /\
    err_status err = Some (codes.Internal, "handler failed") /\
    err_msg err = "rpc error: code = Internal desc = handler failed".
Proof.
  cbv zeta. split; [split; reflexivity|]. split; [reflexivity|].
  apply (unary_panic_becomes_internal report_always enabled_reporter
           bare_context None sample_unary_info panicking_unary
           (enabled_world [] [Some "abc"]) 1
           (sentry.SetHubOnContext bare_context 1)
           (snd (sentry.hub_Clone CurrentHub (enabled_world [] [Some "abc"])))
           (PVString "handler failed")
           (snd (sentry.hub_Clone CurrentHub (enabled_world [] [Some "abc"]))));
    [split; reflexivity|reflexivity].
Defined.

(** C9.  For every incoming call both interceptors see to it that the
    context the handler gets carries a session: the one the call's context
    carries already, with the context left as it is, or else a clone of the
    process-wide default, attached to the context.  The handler is run on
    that context (for a stream: on the stream wrapped with that context)
    and on no other: what it returns there is what the caller gets, and
    handlers that agree there give the same call. *)
Theorem interceptors_ensure_session (defaults : sentryWrapper.Options)
    (wrapper : Sentry) (ctx : Context) (w : World) :
  exists hub ctx' w',
    session_attached ctx w hub ctx' w' /\
    sentry.GetHubFromContext ctx' = Some hub /\
    (forall req info handler,
       (forall res w1,
          handler ctx' req w' = (Returned res, w1) ->
          fst (UnaryServerInterceptor defaults wrapper ctx req info handler w)
            = Returned res) /\
       (forall handler',
          handler' ctx' req w' = handler ctx' req w' ->
          UnaryServerInterceptor defaults wrapper ctx req info handler' w =
          UnaryServerInterceptor defaults wrapper ctx req info handler w)) /\
    (forall srv stream info handler,
       grpc.stream_Context stream = ctx ->
       grpc.stream_Context (grpc.Wrapped stream ctx') = ctx' /\
       (forall err w1,
          handler srv (grpc.Wrapped stream ctx') w' = (Returned err, w1) ->
          fst (StreamServerInterceptor defaults wrapper srv stream info handler w)
            = Returned err) /\
       (forall handler',
          handler' srv (grpc.Wrapped stream ctx') w' =
            handler srv (grpc.Wrapped stream ctx') w' ->
          StreamServerInterceptor defaults wrapper srv stream info handler' w =
          StreamServerInterceptor defaults wrapper srv stream info handler w)).
Proof.
  destruct (session_attached_total ctx w) as (hub & ctx' & w' & Hs).
  exists hub, ctx', w'. split; [exact Hs|].
  split; [exact (session_attached_carries _ _ _ _ _ Hs)|]. split.
  - intros req info handler. split.
    + intros res w1 Hr.
      rewrite (unary_run _ _ _ _ _ _ _ _ _ _ Hs), Hr. reflexivity.
    + intros handler' Hh.
      rewrite !(unary_run _ _ _ _ _ _ _ _ _ _ Hs), Hh. reflexivity.
  - intros srv stream info handler <-. split; [reflexivity|]. split.
    + intros err w1 Hr.
      rewrite (stream_run _ _ _ _ _ _ _ _ _ _ Hs), Hr. reflexivity.
    + intros handler' Hh.
      rewrite !(stream_run _ _ _ _ _ _ _ _ _ _ Hs), Hh. reflexivity.
Qed.

(** C10.  Both interceptors are built with the repanic option set to
    false, so neither ever lets a panic through to the RPC framework:
    whatever the handler does, the call returns. *)
Theorem interceptors_never_repanic (defaults : sentryWrapper.Options)
    (wrapper : Sentry) :
  sentryWrapper.Repanic
    (sentryWrapper.BuildOptions defaults [sentryWrapper.WithRepanic false]) = false /\
  (forall ctx req info handler w, exists res,
     fst (UnaryServerInterceptor defaults wrapper ctx req info handler w)
       = Returned res) /\
  (forall srv stream info handler w, exists err,
     fst (StreamServerInterceptor defaults wrapper srv stream info handler w)
       = Returned err).
Proof.
  split; [reflexivity|]. split.
  - intros ctx req info handler w.
    destruct (session_attached_total ctx w) as (hub & ctx' & w' & Hs).
    rewrite (unary_run _ _ _ _ _ _ _ _ _ _ Hs).
    destruct (handler ctx' req w') as [[res|r] w1]; cbn; eauto.
  - intros srv stream info handler w.
    destruct (session_attached_total (grpc.stream_Context stream) w)
      as (hub & ctx' & w' & Hs).
    rewrite (stream_run _ _ _ _ _ _ _ _ _ _ Hs).
    destruct (handler srv _ w') as [[err|r] w1]; cbn; eauto.
Qed.

(** C1 fails on the code.  A streaming call whose handler panics: the
    stream interceptor recovers and reports the panic through the session,
    and then returns a nil error; the internal-error status it builds is
    thrown away.  The unary interceptor, on the same panic, returns it. *)
Lemma stream_panic_returns_nil_error :
  let w := enabled_world [] [Some "abc"] in
  let answer := StreamServerInterceptor report_always enabled_reporter None
                  sample_stream sample_stream_info panicking_stream w in
  fst answer = Returned None /\
  w_events (snd answer) =
    [mkEvent 1 (ExcPanic (PVString "handler failed")) sentry.empty_scope
             (Some "abc")] /\
  exists err,
    fst (UnaryServerInterceptor report_always enabled_reporter bare_context
           None sample_unary_info panicking_unary w)
      = Returned (None, Some err) /\
    err_status err = Some (codes.Internal, "handler failed").
Proof. vm_compute. repeat split. eexists. split; reflexivity. Qed.

Lemma interceptors_ensure_session_witness :
  exists hub ctx' w',
    let w := enabled_world [] [Some "abc"] in
    session_attached bare_context w hub ctx' w' /\
    sentry.GetHubFromContext ctx' = Some hub /\
    (forall req info handler,
       (forall res w1,
          handler ctx' req w' = (Returned res, w1) ->
          fst (UnaryServerInterceptor report_always enabled_reporter
                 bare_context req info handler w) = Returned res) /\
       (forall handler',
          handler' ctx' req w' = handler ctx' req w' ->
          UnaryServerInterceptor report_always enabled_reporter
            bare_context req info handler' w =
          UnaryServerInterceptor report_always enabled_reporter
            bare_context req info handler w)) /\
    (forall srv stream info handler,
       grpc.stream_Context stream = bare_context ->
       grpc.stream_Context (grpc.Wrapped stream ctx') = ctx' /\
       (forall err w1,
          handler srv (grpc.Wrapped stream ctx') w' = (Returned err, w1) ->
          fst (StreamServerInterceptor report_always enabled_reporter
                 srv stream info handler w) = Returned err) /\
       (forall handler',
          handler' srv (grpc.Wrapped stream ctx') w' =
            handler srv (grpc.Wrapped stream ctx') w' ->
          StreamServerInterceptor report_always enabled_reporter
            srv stream info handler' w =
          StreamServerInterceptor report_always enabled_reporter
            srv stream info handler w)).
Proof.
  apply (interceptors_ensure_session report_always enabled_reporter
           bare_context (enabled_world [] [Some "abc"])).
Defined.

(** * Beyond the contract *)

(** ** [InitSentry] *)

(** What [InitSentry] comes to: the options it hands to the SDK, read from
    the environment, and its three ways out. *)
Lemma InitSentry_run release w dsn :
  default EmptyString (env_string (w_env w) !! "SENTRY_DSN") = dsn ->
  exists o,
    (Dsn o = dsn /\
     AttachStacktrace o = true /\
     Release o =
       (if decide (release = EmptyString)
        then default EmptyString (env_string (w_env w) !! "SENTRY_RELEASE")
        else release) /\
     SampleRate o =
       default (QArith_base.Qmake 1 1) (env_float (w_env w) !! "SENTRY_SAMPLING") /\
     EnableTracing o = default false (env_bool (w_env w) !! "SENTRY_TRACING") /\
     TracesSampleRate o =
       default (QArith_base.Qmake 0 1)
               (env_float (w_env w) !! "SENTRY_TRACES_SAMPLE_RATE") /\
     Environment o =
       default EmptyString (env_string (w_env w) !! "ENVIRONMENT")) /\
    InitSentry release w =
      if decide (dsn ≠ EmptyString) then
        if w_init_ok w o then
          (Returned (mkSentry (Some (sentry.new_client o w))
                              (Some (sentryWrapper.New true))),
           set_hub CurrentHub
             (mkHub (Some (sentry.new_client o w)) (hub_scope (w_current w))
                    (hub_saved (w_current w)) (hub_lastEventID (w_current w))) w)
        else
          (Returned (mkSentry None None),
           add_log (LogWarnf ("Could not initialize sentry with DSN: " ++ dsn)) w)
      else
        (Returned (mkSentry None None),
         add_log (LogWarnf ("Could not initialize sentry with DSN: " ++ dsn)) w).
Proof.
  intros <-.
  unfold InitSentry, os_Getenv, env.String, env.Float, env.Bool,
    sentry.Init, sentry.hub_Client, log.Warnf, bind, ret.
  cbn. eexists (mkClientOptions _ _ _ _ _ _ _). cbn.
  split; [repeat split|].
  destruct (decide (release = EmptyString)); cbn;
    (destruct (decide (_ ≠ EmptyString)); cbn;
     [destruct (w_init_ok w _); cbn|]); reflexivity.
Qed.

(** X1.  When the endpoint setting [SENTRY_DSN] is unset or empty,
    [InitSentry] makes a reporter disabled on both counts (no client, no
    handler adapter), whatever the release and the other settings; it logs
    one warning and leaves the SDK as it was: no client is bound and nothing
    else in the process changes. *)
Theorem InitSentry_unconfigured (release : string) (w : World) :
  env_string (w_env w) !! "SENTRY_DSN" = None \/
  env_string (w_env w) !! "SENTRY_DSN" = Some EmptyString ->
  InitSentry release w =
    (Returned (mkSentry None None),
     add_log (LogWarnf "Could not initialize sentry with DSN: ") w).
Proof.
  intros H. apply InitSentry_without_endpoint. by destruct H as [-> | ->].
Qed.

Lemma InitSentry_unconfigured_witness :
  env_string (w_env unconfigured_world) !! "SENTRY_DSN" = None /\
  InitSentry "v2" unconfigured_world =
    (Returned (mkSentry None None),
     add_log (LogWarnf "Could not initialize sentry with DSN: ") unconfigured_world).
Proof.
  split; [reflexivity|].
  apply (InitSentry_unconfigured "v2" unconfigured_world). left. reflexivity.
Defined.

(** X2.  When the endpoint is set and the SDK refuses it, [InitSentry]
    raises nothing: it makes a disabled reporter, logs one warning that
    names the endpoint, and binds no client to the process-wide hub. *)
Theorem InitSentry_rejected (release : string) (w : World) (dsn : string) :
  env_string (w_env w) !! "SENTRY_DSN" = Some dsn ->
  dsn <> EmptyString ->
  (forall o, Dsn o = dsn -> w_init_ok w o = false) ->
  InitSentry release w =
    (Returned (mkSentry None None),
     add_log (LogWarnf ("Could not initialize sentry with DSN: " ++ dsn)) w).
Proof.
  intros Hd Hne Hno.
  destruct (InitSentry_run release w dsn) as (o & (Ho & _) & E);
    [by rewrite Hd|].
  rewrite E, (Hno o Ho). by destruct (decide (dsn ≠ EmptyString)).
Qed.

Lemma InitSentry_rejected_witness :
  let w := configured_world "not a url" false in
  env_string (w_env w) !! "SENTRY_DSN" = Some "not a url" /\
  InitSentry "v2" w =
    (Returned (mkSentry None None),
     add_log (LogWarnf "Could not initialize sentry with DSN: not a url") w).
Proof.
  cbv zeta. split; [reflexivity|].
  apply (InitSentry_rejected "v2" (configured_world "not a url" false) "not a url");
    [reflexivity | discriminate | reflexivity].
Defined.

(** X3.  When the endpoint is set and the SDK takes it, [InitSentry] makes
    an enabled reporter: its client handle is the client now bound to the
    process-wide hub, made for that endpoint with stack traces attached;
    its handler adapter re-panics; nothing is logged and the scopes of the
    process-wide hub are left as they were. *)
Theorem InitSentry_enabled (release : string) (w : World) (dsn : string) :
  env_string (w_env w) !! "SENTRY_DSN" = Some dsn ->
  dsn <> EmptyString ->
  (forall o, Dsn o = dsn -> w_init_ok w o = true) ->
  exists c w',
    InitSentry release w =
      (Returned (mkSentry (Some c) (Some (sentryWrapper.New true))), w') /\
    hub_client (w_current w') = Some c /\
    Dsn (cl_options c) = dsn /\
    AttachStacktrace (cl_options c) = true /\
    w_log w' = w_log w /\
    hub_scope (w_current w') = hub_scope (w_current w) /\
    hub_saved (w_current w') = hub_saved (w_current w).
Proof.
  intros Hd Hne Hok.
  destruct (InitSentry_run release w dsn) as (o & (Ho & Ha & _) & E);
    [by rewrite Hd|].
  rewrite (Hok o Ho) in E. destruct (decide (dsn ≠ EmptyString)); [|done].
  eexists _, _. split; [exact E|]. cbn. auto 10.
Qed.

Lemma InitSentry_enabled_witness :
  let w := configured_world "https://key@sentry.example/1" true in
  env_string (w_env w) !! "SENTRY_DSN" = Some "https://key@sentry.example/1" /\
  exists c w',
    InitSentry "v2" w =
      (Returned (mkSentry (Some c) (Some (sentryWrapper.New true))), w') /\
    hub_client (w_current w') = Some c /\
    Dsn (cl_options c) = "https://key@sentry.example/1" /\
    AttachStacktrace (cl_options c) = true /\
    w_log w' = w_log w /\
    hub_scope (w_current w') = hub_scope (w_current w) /\
    hub_saved (w_current w') = hub_saved (w_current w).
Proof.
  cbv zeta. split; [reflexivity|].
  apply (InitSentry_enabled "v2"
           (configured_world "https://key@sentry.example/1" true)
           "https://key@sentry.example/1");
    [reflexivity | discriminate | reflexivity].
Defined.

(** X4.  The options [InitSentry] hands to the SDK, of which the SDK makes
    the client of the reporter: the endpoint; stack traces attached; the
    release given as argument, or [SENTRY_RELEASE] when the argument is
    empty; the sampling rate [SENTRY_SAMPLING], or 1; tracing as
    [SENTRY_TRACING] says, or off; the trace sampling rate
    [SENTRY_TRACES_SAMPLE_RATE], or 0; and the variable [ENVIRONMENT] as the
    deployment environment.  What the SDK does with them is its own. *)
Theorem InitSentry_settings (release : string) (w : World) (c : Client)
    (h : option sentryWrapper.Handler) (w' : World) :
  InitSentry release w = (Returned (mkSentry (Some c) h), w') ->
  let e := w_env w in
  exists o,
    w_init_ok w o = true /\
    c = sentry.new_client o w /\
    Dsn o = default EmptyString (env_string e !! "SENTRY_DSN") /\
    AttachStacktrace o = true /\
    Release o =
      (if decide (release = EmptyString)
       then default EmptyString (env_string e !! "SENTRY_RELEASE")
       else release) /\
    SampleRate o = default (QArith_base.Qmake 1 1) (env_float e !! "SENTRY_SAMPLING") /\
    EnableTracing o = default false (env_bool e !! "SENTRY_TRACING") /\
    TracesSampleRate o =
      default (QArith_base.Qmake 0 1) (env_float e !! "SENTRY_TRACES_SAMPLE_RATE") /\
    Environment o = default EmptyString (env_string e !! "ENVIRONMENT").
Proof.
  intros Hi.
  destruct (InitSentry_run release w _ eq_refl) as (o & Hs & E).
  rewrite Hi in E. exists o.
  destruct (decide (_ ≠ EmptyString)); [destruct (w_init_ok w o) eqn:Hok|];
    try discriminate.
  injection E as -> _ _. split; [reflexivity|]. split; [reflexivity|].
  exact Hs.
Qed.

Lemma InitSentry_settings_witness :
  let w := configured_world "https://key@sentry.example/1" true in
  let c := mkClient (mkClientOptions "https://key@sentry.example/1" true false
                       (QArith_base.Qmake 0 1) "v2" (QArith_base.Qmake 1 1)
                       EmptyString) in
  InitSentry "v2" w =
    (Returned (mkSentry (Some c) (Some (sentryWrapper.New true))),
     snd (InitSentry "v2" w)) /\
  exists o,
    w_init_ok w o = true /\
    c = sentry.new_client o w /\
    Dsn o = "https://key@sentry.example/1" /\
    AttachStacktrace o = true /\
    Release o = "v2" /\
    SampleRate o = QArith_base.Qmake 1 1 /\
    EnableTracing o = false /\
    TracesSampleRate o = QArith_base.Qmake 0 1 /\
    Environment o = EmptyString.
Proof.
  cbv zeta. split; [reflexivity|].
  apply (InitSentry_settings "v2"
           (configured_world "https://key@sentry.example/1" true) _ _ _
           (eq_refl (InitSentry "v2"
                       (configured_world "https://key@sentry.example/1" true)))).
Defined.

(** X5.  Whatever the environment and the SDK's answer, [InitSentry]
    returns a reporter whose client handle and handler adapter are present
    together or absent together, and it touches nothing but the log and the
    client of the process-wide hub: no event is sent, no hub is made, the
    transport and the environment are as before. *)
Theorem InitSentry_client_and_handler_together (release : string) (w : World) :
  exists wrapper w',
    InitSentry release w = (Returned wrapper, w') /\
    non_nil (client wrapper) = non_nil (handler wrapper) /\
    w_events w' = w_events w /\
    w_clones w' = w_clones w /\
    w_transport w' = w_transport w /\
    w_env w' = w_env w.
Proof.
  destruct (InitSentry_run release w _ eq_refl) as (o & _ & E).
  destruct (decide (_ ≠ EmptyString)); [destruct (w_init_ok w o)|];
    eexists _, _; (split; [exact E|]); cbn; auto 10.
Qed.

(** ** [Capture] and [CaptureWithContext] on the reporting path *)

Section ReportingFacts.
Variable wrapper : Sentry.

(** The scope work of [CaptureWithContext] is done on a scope of the
    process-wide hub that is popped again: it leaves no trace. *)
Lemma scope_block_leaves_no_trace e w :
  sentry.WithScope (fun scope =>
    match errors.Extras e with
    | Some extras =>
        sentry.SetContext scope "extras" extras ;;
        sentry.SetExtras scope extras
    | None => ret tt
    end ;;
    sentry.SetTags scope (errors.Tags e)) w = (Returned tt, w).
Proof.
  destruct w as [lg evs [cl sc saved last] clones tr en ok app rel].
  go_unfold. cbn. destruct (errors.Extras e); reflexivity.
Qed.

(** [Capture] on an error it reports. *)
Lemma Capture_run e p w :
  reports wrapper e = true ->
  Capture wrapper (Some e) p w =
    match hub_client (w_current w) with
    | Some _ =>
        let id := mjoin (head (w_transport w)) in
        let w1 := sent CurrentHub (w_current w) (ExcError (Some e))
                       (error_scope e (hub_scope (w_current w))) id w in
        (if p then Panicked (PVError e) else Returned (default EmptyString id),
         match id with
         | Some i => add_log (LogErrorf e (captured_msg i)) w1
         | None => w1
         end)
    | None => (if p then Panicked (PVError e) else Returned EmptyString, w)
    end.
Proof.
  unfold reports. intros H. unfold Capture. unfold bind at 1 2. rewrite H.
  destruct w as [lg evs [cl sc saved last] clones tr en ok app rel].
  unfold error_scope, sent. go_unfold. cbn.
  destruct (errors.Extras e); (destruct cl; [destruct tr as [|[id|] tr]|]);
    cbn; destruct p; reflexivity.
Qed.

(** [CaptureWithContext] on an error it reports, with a session. *)
Lemma CaptureWithContext_run c hub e p w :
  reports wrapper e = true ->
  sentry.GetHubFromContext c = Some hub ->
  CaptureWithContext wrapper c (Some e) p w =
    match sentry.hub_CaptureException hub (Some e) w with
    | (Returned (Some id), w1) =>
        (if p then Panicked (PVError e) else Returned id,
         add_log (LogErrorf e (captured_msg id)) w1)
    | (Returned None, w1) =>
        (Panicked (PVError (if p then e else nil_dereference)), w1)
    | (Panicked r, w1) => (Panicked r, w1)
    end.
Proof.
  unfold reports. intros H Hc. unfold CaptureWithContext.
  unfold bind at 1 2. rewrite H, Hc.
  unfold bind at 1. rewrite scope_block_leaves_no_trace.
  unfold bind at 1.
  destruct (sentry.hub_CaptureException hub (Some e) w) as [[[id|]|r] w1];
    [| |reflexivity]; unfold log.Errorf, bind, ret; destruct p; reflexivity.
Qed.

End ReportingFacts.

(** C7.  For every non-nil error, [Capture(err, true)] panics with [err]
    itself, and does so after its reporting attempt is complete, whatever
    the reporter, the error and the transport's answer.  What the attempt
    leaves is spelled out case by case.  When the reporter is disabled or
    the error ignorable, the error is in the local log and nothing reached
    a client.  When the error is to be reported and the process-wide hub
    has its client, one event, the error under its scope, was handed to
    that client and the transport's answer used up, and the log names the
    identifier when there is one.  When that hub has no client, nothing was
    sent or logged.  In all cases this is the world [Capture(err, false)]
    leaves, and that call returns. *)
Theorem Capture_reraises_after_reporting (wrapper : Sentry) (e : error) (w : World) :
  let r := Capture wrapper (Some e) true w in
  fst r = Panicked (PVError e) /\
  snd r = snd (Capture wrapper (Some e) false w) /\
  (exists id, fst (Capture wrapper (Some e) false w) = Returned id) /\
  (reports wrapper e = false -> local_only e w (snd r)) /\
  (reports wrapper e = true -> hub_client (w_current w) = None ->
     w_log (snd r) = w_log w /\
     w_events (snd r) = w_events w /\
     w_transport (snd r) = w_transport w) /\
  (reports wrapper e = true ->
   forall cl, hub_client (w_current w) = Some cl ->
     let id : option EventID := mjoin (head (w_transport w)) in
     w_events (snd r) =
       (w_events w ++
        [mkEvent CurrentHub (ExcError (Some e))
                 (error_scope e (hub_scope (w_current w))) id])%list /\
     w_transport (snd r) = tail (w_transport w) /\
     w_log (snd r) =
       match id with
       | Some i => (w_log w ++ [LogErrorf e (captured_msg i)])%list
       | None => w_log w
       end).
Proof.
  intros r. subst r.
  destruct (Capture_shape wrapper e w) as (id0 & w0 & E).
  split; [by rewrite (E true)|].
  split; [by rewrite (E true), (E false)|].
  split; [rewrite (E false); eauto|].
  destruct (reports wrapper e) eqn:Hr.
  - rewrite (Capture_run _ _ _ _ Hr).
    split; [discriminate|]. split.
    + intros _ ->. done.
    + intros _ cl ->. cbv zeta. unfold EventID in *.
      go_step; cbn; repeat split.
  - rewrite Capture_local by exact Hr.
    split; [intros _; apply add_log_local_only|]. split; discriminate.
Qed.

Lemma Capture_reraises_after_reporting_witness :
  let w := enabled_world [] [Some "abc"] in
  let r := Capture enabled_reporter (Some boom) true w in
  reports enabled_reporter boom = true /\
  hub_client (w_current w) = Some sample_client /\
  fst r = Panicked (PVError boom) /\
  w_events (snd r) =
    [mkEvent CurrentHub (ExcError (Some boom))
             (error_scope boom (hub_scope (w_current w))) (Some "abc")] /\
  w_transport (snd r) = [] /\
  w_log (snd r) = [LogErrorf boom (captured_msg "abc")].
Proof.
  cbv zeta. split; [reflexivity|]. split; [reflexivity|].
  destruct (Capture_reraises_after_reporting enabled_reporter boom
              (enabled_world [] [Some "abc"]))
    as (H1 & _ & _ & _ & _ & H6).
  split; [exact H1|].
  exact (H6 eq_refl sample_client eq_refl).
Defined.

(** X6.  When the reporter is enabled, the error is not ignorable, the
    process-wide hub has its client and the transport takes the event with
    identifier [id]: [Capture] hands exactly one event to the process-wide
    hub, the error itself, under a scope in which the error's tags and
    extras are set over those of the hub; it logs one line that names [id];
    and it returns [id], or re-raises the error when the panic flag is
    set. *)
Theorem Capture_sends_with_error_scope (wrapper : Sentry) (e : error) (p : bool)
    (w : World) (cl : Client) (id : EventID) :
  reports wrapper e = true ->
  hub_client (w_current w) = Some cl ->
  head (w_transport w) = Some (Some id) ->
  let r := Capture wrapper (Some e) p w in
  fst r = (if p then Panicked (PVError e) else Returned id) /\
  w_log (snd r) = (w_log w ++ [LogErrorf e (captured_msg id)])%list /\
  exists sc,
    w_events (snd r) =
      (w_events w ++ [mkEvent CurrentHub (ExcError (Some e)) sc (Some id)])%list /\
    (forall k v, errors.Tags e !! k = Some v -> sc_tags sc !! k = Some v) /\
    (forall k, errors.Tags e !! k = None ->
               sc_tags sc !! k = sc_tags (hub_scope (w_current w)) !! k) /\
    (forall extras, errors.Extras e = Some extras ->
       sc_contexts sc !! "extras" = Some extras /\
       forall k v, extras !! k = Some v -> sc_extras sc !! k = Some v).
Proof.
  intros Hr Hc Ht r. subst r. rewrite (Capture_run _ _ _ _ Hr), Hc, Ht. cbn.
  split; [by destruct p|]. split; [reflexivity|].
  eexists. split; [reflexivity|]. unfold error_scope.
  split; [|split].
  - intros k v Hk. destruct (errors.Extras e); cbn; by apply lookup_union_Some_l.
  - intros k Hk. destruct (errors.Extras e); cbn; by apply lookup_union_r.
  - intros extras ->. cbn. split; [apply lookup_insert_eq|].
    intros k v Hk. by apply lookup_union_Some_l.
Qed.

Lemma Capture_sends_with_error_scope_witness :
  let w := enabled_world [] [Some "abc"] in
  let r := Capture enabled_reporter (Some boom) false w in
  reports enabled_reporter boom = true /\
  fst r = Returned "abc" /\
  w_log (snd r) = [LogErrorf boom (captured_msg "abc")] /\
  exists sc,
    w_events (snd r) = [mkEvent CurrentHub (ExcError (Some boom)) sc (Some "abc")] /\
    (forall k v, errors.Tags boom !! k = Some v -> sc_tags sc !! k = Some v) /\
    (forall k, errors.Tags boom !! k = None ->
               sc_tags sc !! k = sc_tags (hub_scope (w_current w)) !! k) /\
    (forall extras, errors.Extras boom = Some extras ->
       sc_contexts sc !! "extras" = Some extras /\
       forall k v, extras !! k = Some v -> sc_extras sc !! k = Some v).
Proof.
  cbv zeta. split; [reflexivity|].
  apply (Capture_sends_with_error_scope enabled_reporter boom false
           (enabled_world [] [Some "abc"]) sample_client "abc");
    reflexivity.
Defined.

(** X7.  When [Capture] goes to the SDK and the SDK answers nil (the event
    is sampled out, or the process-wide hub has no client), the error
    leaves no trace in the local log either, under either flag; with the
    flag false the identifier returned is empty. *)
Theorem Capture_dropped_is_silent (wrapper : Sentry) (e : error) (w : World) :
  reports wrapper e = true ->
  hub_client (w_current w) = None \/ mjoin (head (w_transport w)) = None ->
  fst (Capture wrapper (Some e) false w) = Returned EmptyString /\
  forall p, w_log (snd (Capture wrapper (Some e) p w)) = w_log w.
Proof.
  intros Hr Hd. split; [|intros p]; rewrite (Capture_run _ _ _ _ Hr);
    destruct (hub_client (w_current w)) eqn:Hc; try reflexivity;
    (destruct Hd as [Hd|Hd]; [congruence|]); cbv zeta; unfold EventID in *;
    rewrite Hd; reflexivity.
Qed.

Lemma Capture_dropped_is_silent_witness :
  let w := enabled_world [] [None; Some "abc"] in
  reports enabled_reporter boom = true /\
  mjoin (head (w_transport w)) = None /\
  fst (Capture enabled_reporter (Some boom) false w) = Returned EmptyString /\
  forall p, w_log (snd (Capture enabled_reporter (Some boom) p w)) = w_log w.
Proof.
  cbv zeta. split; [reflexivity|]. split; [reflexivity|].
  apply (Capture_dropped_is_silent enabled_reporter boom
           (enabled_world [] [None; Some "abc"]));
    [reflexivity | right; reflexivity].
Defined.

(** The SDK's capture changes no hub's client or scopes. *)
Lemma capture_keeps_layers h x w :
  hub_layers <$> hubs (snd (sentry.capture h x w)) = hub_layers <$> hubs w.
Proof.
  unfold sentry.capture.
  destruct (hubs w !! h) as [s|] eqn:Hs; [|reflexivity].
  destruct (hub_client s) eqn:Hc; [|reflexivity].
  destruct h as [|i];
    [change (Some (w_current w) = Some s) in Hs
    |change (w_clones w !! i = Some s) in Hs]; cbn.
  - injection Hs as <-. unfold hub_layers. cbn. by rewrite Hc.
  - f_equal. rewrite list_fmap_insert. apply list_insert_id.
    rewrite list_lookup_fmap, Hs. unfold hub_layers. cbn. by rewrite Hc.
Qed.

Lemma Capture_keeps_layers wrapper err p w :
  hub_layers <$> hubs (snd (Capture wrapper err p w)) = hub_layers <$> hubs w.
Proof.
  destruct err as [e|]; [|reflexivity].
  destruct (reports wrapper e) eqn:Hr.
  - rewrite (Capture_run _ _ _ _ Hr).
    destruct (hub_client (w_current w)) eqn:Hc; [|reflexivity].
    cbv zeta. unfold hub_layers. destruct p; cbn; go_step; reflexivity.
  - by rewrite Capture_local.
Qed.

(** X8.  Reporting never changes what a hub is set up with: after
    [Capture] or [CaptureWithContext], on any input, every hub (the
    process-wide one and every session) has the client and the stack of
    scopes it had before, so tags and extras of one error never stick to
    the next, and no hub is made. *)
Theorem reporting_keeps_every_scope (wrapper : Sentry) (c : Context)
    (err : option error) (p : bool) (w : World) :
  hub_layers <$> hubs (snd (Capture wrapper err p w)) = hub_layers <$> hubs w /\
  hub_layers <$> hubs (snd (CaptureWithContext wrapper c err p w))
    = hub_layers <$> hubs w.
Proof.
  split; [apply Capture_keeps_layers|].
  destruct err as [e|]; [|reflexivity].
  destruct (reports wrapper e) eqn:Hr; [|by rewrite CaptureWithContext_local].
  destruct (sentry.GetHubFromContext c) as [hub|] eqn:Hc.
  - rewrite (CaptureWithContext_run _ _ _ _ _ _ Hr Hc).
    unfold sentry.hub_CaptureException.
    pose proof (capture_keeps_layers hub (ExcError (Some e)) w) as Hk.
    destruct (sentry.capture hub (ExcError (Some e)) w) as [[[id|]|r] w1];
      exact Hk.
  - destruct (CaptureWithContext_fallback wrapper c e w Hc) as (id & w' & E).
    destruct (E p) as [E1 E2]. rewrite E2.
    pose proof (Capture_keeps_layers wrapper (Some e) p w) as Hk.
    rewrite E1 in Hk. exact Hk.
Qed.

(** X9.  With a session on the context, an enabled reporter and an error
    to report, [CaptureWithContext] hands the error to the session's hub
    and not to the process-wide one.  When the transport takes the event
    with identifier [id], the one event on record is on the session's hub
    under that hub's scope as it stood (the error's tags and extras were
    set on a scope of the process-wide hub, popped before the capture);
    one log line names [id]; [id] is returned, or the error re-raised when
    the panic flag is set. *)
Theorem CaptureWithContext_sends_on_session (wrapper : Sentry) (c : Context)
    (hub : HubRef) (s : HubState) (cl : Client) (e : error) (p : bool)
    (w : World) (id : EventID) :
  reports wrapper e = true ->
  sentry.GetHubFromContext c = Some hub ->
  hubs w !! hub = Some s ->
  hub_client s = Some cl ->
  head (w_transport w) = Some (Some id) ->
  let r := CaptureWithContext wrapper c (Some e) p w in
  fst r = (if p then Panicked (PVError e) else Returned id) /\
  w_log (snd r) = (w_log w ++ [LogErrorf e (captured_msg id)])%list /\
  w_events (snd r) =
    (w_events w ++ [mkEvent hub (ExcError (Some e)) (hub_scope s) (Some id)])%list.
Proof.
  intros Hr Hc Hs Hcl Ht r. subst r.
  rewrite (CaptureWithContext_run _ _ _ _ _ _ Hr Hc).
  unfold sentry.hub_CaptureException, sentry.capture.
  rewrite Hs, Hcl, Ht. cbn. destruct hub; cbn; by destruct p.
Qed.

Lemma CaptureWithContext_sends_on_session_witness :
  let w := enabled_world [enabled_hub] [Some "abc"] in
  let r := CaptureWithContext enabled_reporter session_context (Some boom) false w in
  reports enabled_reporter boom = true /\
  sentry.GetHubFromContext session_context = Some 1 /\
  hubs w !! 1 = Some enabled_hub /\
  fst r = Returned "abc" /\
  w_log (snd r) = [LogErrorf boom (captured_msg "abc")] /\
  w_events (snd r) =
    [mkEvent 1 (ExcError (Some boom)) (hub_scope enabled_hub) (Some "abc")].
Proof.
  cbv zeta. do 3 (split; [reflexivity|]).
  apply (CaptureWithContext_sends_on_session enabled_reporter session_context
           1 enabled_hub sample_client boom false
           (enabled_world [enabled_hub] [Some "abc"]) "abc");
    reflexivity.
Defined.

(** X10.  [CaptureWithContext(ctx, err, true)] on a non-nil error always
    re-raises [err] itself: with or without a session, whatever the
    reporter and the SDK's answer, the panic the caller sees is its own
    error and never the nil dereference. *)
Theorem CaptureWithContext_reraises (wrapper : Sentry) (c : Context)
    (e : error) (w : World) :
  fst (CaptureWithContext wrapper c (Some e) true w) = Panicked (PVError e).
Proof.
  destruct (reports wrapper e) eqn:Hr; [|by rewrite CaptureWithContext_local].
  destruct (sentry.GetHubFromContext c) as [hub|] eqn:Hc.
  - rewrite (CaptureWithContext_run _ _ _ _ _ _ Hr Hc).
    unfold sentry.hub_CaptureException.
    destruct (capture_returns hub (ExcError (Some e)) w) as [[id|] ->];
      reflexivity.
  - destruct (CaptureWithContext_fallback wrapper c e w Hc) as (id & w' & E).
    destruct (E true) as [_ ->]. reflexivity.
Qed.

(** X11.  With the panic flag false, [CaptureWithContext] panics in one
    case only: the error is non-nil and to be reported, the context carries
    a session, and that session's capture answers nil.  The panic is then
    the nil dereference; in every other case the call returns. *)
Theorem CaptureWithContext_faults_exactly_when_dropped (wrapper : Sentry)
    (c : Context) (err : option error) (w : World) :
  (dropped_on_session wrapper c err w ->
   fst (CaptureWithContext wrapper c err false w)
     = Panicked (PVError nil_dereference)) /\
  (forall v, fst (CaptureWithContext wrapper c err false w) = Panicked v ->
             dropped_on_session wrapper c err w).
Proof.
  split.
  - intros (e & hub & -> & Hr & Hc & Hn).
    rewrite (CaptureWithContext_run _ _ _ _ _ _ Hr Hc).
    destruct (sentry.hub_CaptureException hub (Some e) w) as [[[id|]|r] w1];
      cbn in Hn; try discriminate. reflexivity.
  - intros v. destruct err as [e|]; [|discriminate].
    destruct (reports wrapper e) eqn:Hr;
      [|by rewrite CaptureWithContext_local].
    destruct (sentry.GetHubFromContext c) as [hub|] eqn:Hc.
    + rewrite (CaptureWithContext_run _ _ _ _ _ _ Hr Hc).
      intros Hp. exists e, hub. repeat split; try done.
      revert Hp. unfold sentry.hub_CaptureException.
      destruct (capture_returns hub (ExcError (Some e)) w) as [[id|] ->];
        [discriminate|reflexivity].
    + destruct (CaptureWithContext_fallback wrapper c e w Hc) as (id & w' & E).
      destruct (E false) as [_ ->]. discriminate.
Qed.

Lemma CaptureWithContext_faults_exactly_when_dropped_witness :
  let w := enabled_world [enabled_hub] [None] in
  dropped_on_session enabled_reporter session_context (Some boom) w /\
  fst (CaptureWithContext enabled_reporter session_context (Some boom) false w)
    = Panicked (PVError nil_dereference).
Proof.
  cbv zeta.
  assert (dropped_on_session enabled_reporter session_context (Some boom)
            (enabled_world [enabled_hub] [None])) as H.
  { exists boom, 1. repeat split. }
  split; [exact H|].
  exact (proj1 (CaptureWithContext_faults_exactly_when_dropped
                  enabled_reporter session_context (Some boom)
                  (enabled_world [enabled_hub] [None])) H).
Defined.

(** X12.  Without a session on the context, [CaptureWithContext] is
    [Capture] in all it does: the same log lines, the same events, the same
    world; it panics exactly when [Capture] panics, with the same value.
    Only the identifier differs: what it returns is always empty. *)
Theorem CaptureWithContext_without_session (wrapper : Sentry) (c : Context)
    (err : option error) (p : bool) (w : World) :
  sentry.GetHubFromContext c = None ->
  let r := CaptureWithContext wrapper c err p w in
  let r0 := Capture wrapper err p w in
  snd r = snd r0 /\
  (forall v, fst r = Panicked v <-> fst r0 = Panicked v) /\
  (forall id, fst r = Returned id -> id = EmptyString).
Proof.
  intros Hc r r0. subst r r0. destruct err as [e|].
  - destruct (CaptureWithContext_fallback wrapper c e w Hc) as (id & w' & E).
    destruct (E p) as [-> ->]. cbn. split; [reflexivity|].
    destruct p; split; try done; congruence.
  - cbn. split; [reflexivity|]. split; [done|congruence].
Qed.

Lemma CaptureWithContext_without_session_witness :
  let w := enabled_world [] [Some "abc"] in
  let r := CaptureWithContext enabled_reporter bare_context (Some boom) false w in
  let r0 := Capture enabled_reporter (Some boom) false w in
  sentry.GetHubFromContext bare_context = None /\
  snd r = snd r0 /\
  (forall v, fst r = Panicked v <-> fst r0 = Panicked v) /\
  (forall id, fst r = Returned id -> id = EmptyString).
Proof.
  cbv zeta. split; [reflexivity|].
  apply (CaptureWithContext_without_session enabled_reporter bare_context
           (Some boom) false (enabled_world [] [Some "abc"])).
  reflexivity.
Defined.

(** ** The decorators and the middleware *)

(** X13.  The middleware of a reporter without a handler adapter serves
    every request exactly as the handler it is given: [SentryMiddleware]
    adds nothing in front of [next]. *)
Theorem SentryMiddleware_disabled_is_next (wrapper : Sentry) (next : http.Handler) :
  handler wrapper = None ->
  http.ServeHTTP (SentryMiddleware wrapper next) = http.ServeHTTP next.
Proof. destruct wrapper as [cl h]. cbn. intros ->. reflexivity. Qed.

Lemma SentryMiddleware_disabled_is_next_witness :
  handler disabled_reporter = None /\
  http.ServeHTTP (SentryMiddleware disabled_reporter (http.mkHandler quiet_handler))
    = quiet_handler.
Proof.
  split; [reflexivity|].
  apply (SentryMiddleware_disabled_is_next disabled_reporter
           (http.mkHandler quiet_handler)).
  reflexivity.
Defined.

(** ** The interceptors on a call that completes, and on a panic *)

(** X15.  A unary call whose handler returns: the interceptor hands the
    handler's response and error back unchanged.  When the report policy
    accepts the returned error (a nil error as well, if the policy accepts
    nil) the error is captured once on the call's session; when the policy
    refuses it, the interceptor adds nothing to what the handler did. *)
Theorem unary_reports_by_policy (defaults : sentryWrapper.Options)
    (wrapper : Sentry) (ctx : Context) (req : grpc.any)
    (info : grpc.UnaryServerInfo) (handler : grpc.UnaryHandler) (w : World)
    (hub : HubRef) (ctx' : Context) (w' : World)
    (resp : grpc.any) (err : option error) (w1 : World) :
  session_attached ctx w hub ctx' w' ->
  handler ctx' req w' = (Returned (resp, err), w1) ->
  UnaryServerInterceptor defaults wrapper ctx req info handler w =
    (Returned (resp, err),
     if sentryWrapper.ReportOn defaults err
     then snd (sentry.hub_CaptureException hub err w1)
     else w1).
Proof.
  intros Hs Hh. rewrite (unary_run _ _ _ _ _ _ _ _ _ _ Hs), Hh. reflexivity.
Qed.

Lemma unary_reports_by_policy_witness :
  let w := enabled_world [enabled_hub] [Some "abc"] in
  session_attached session_context w 1 session_context w /\
  failing_unary session_context None w = (Returned (None, Some boom), w) /\
  UnaryServerInterceptor report_always enabled_reporter session_context None
    sample_unary_info failing_unary w =
    (Returned (None, Some boom),
     if sentryWrapper.ReportOn report_always (Some boom)
     then snd (sentry.hub_CaptureException 1 (Some boom) w)
     else w).
Proof.
  cbv zeta. split; [repeat split|]. split; [reflexivity|].
  apply (unary_reports_by_policy report_always enabled_reporter
           session_context None sample_unary_info failing_unary
           (enabled_world [enabled_hub] [Some "abc"]) 1 session_context
           (enabled_world [enabled_hub] [Some "abc"]) None (Some boom)
           (enabled_world [enabled_hub] [Some "abc"]));
    [repeat split | reflexivity].
Defined.

(** X16.  A streaming call whose handler returns: the interceptor hands the
    handler's error back unchanged, and captures it once on the call's
    session exactly when the report policy accepts it. *)
Theorem stream_reports_by_policy (defaults : sentryWrapper.Options)
    (wrapper : Sentry) (srv : grpc.any) (stream : grpc.ServerStream)
    (info : grpc.StreamServerInfo) (handler : grpc.StreamHandler) (w : World)
    (hub : HubRef) (ctx' : Context) (w' : World)
    (err : option error) (w1 : World) :
  session_attached (grpc.stream_Context stream) w hub ctx' w' ->
  handler srv (grpc.Wrapped stream ctx') w' = (Returned err, w1) ->
  StreamServerInterceptor defaults wrapper srv stream info handler w =
    (Returned err,
     if sentryWrapper.ReportOn defaults err
     then snd (sentry.hub_CaptureException hub err w1)
     else w1).
Proof.
  intros Hs Hh. rewrite (stream_run _ _ _ _ _ _ _ _ _ _ Hs), Hh. reflexivity.
Qed.

Lemma stream_reports_by_policy_witness :
  let w := enabled_world [] [Some "abc"] in
  let ctx' := sentry.SetHubOnContext bare_context 1 in
  let w' := snd (sentry.hub_Clone CurrentHub w) in
  session_attached (grpc.stream_Context sample_stream) w 1 ctx' w' /\
  failing_stream None (grpc.Wrapped sample_stream ctx') w' = (Returned (Some boom), w') /\
  StreamServerInterceptor report_always enabled_reporter None sample_stream
    sample_stream_info failing_stream w =
    (Returned (Some boom),
     if sentryWrapper.ReportOn report_always (Some boom)
     then snd (sentry.hub_CaptureException 1 (Some boom) w')
     else w').
Proof.
  cbv zeta. split; [split; reflexivity|]. split; [reflexivity|].
  apply (stream_reports_by_policy report_always enabled_reporter None
           sample_stream sample_stream_info failing_stream
           (enabled_world [] [Some "abc"]) 1
           (sentry.SetHubOnContext bare_context 1)
           (snd (sentry.hub_Clone CurrentHub (enabled_world [] [Some "abc"])))
           (Some boom)
           (snd (sentry.hub_Clone CurrentHub (enabled_world [] [Some "abc"]))));
    [split; reflexivity | reflexivity].
Defined.

(** X17.  A unary call whose handler panics: beyond what the handler did
    before it panicked, the one thing the interceptor does is report the
    panic value on the call's session ([hub.RecoverWithContext]); when that
    hub has its client, exactly one event, carrying the panic value, is on
    record for that hub. *)
Theorem unary_panic_is_reported_on_session (defaults : sentryWrapper.Options)
    (wrapper : Sentry) (ctx : Context) (req : grpc.any)
    (info : grpc.UnaryServerInfo) (handler : grpc.UnaryHandler) (w : World)
    (hub : HubRef) (ctx' : Context) (w' : World) (r : PanicValue) (w1 : World) :
  session_attached ctx w hub ctx' w' ->
  handler ctx' req w' = (Panicked r, w1) ->
  let w2 := snd (UnaryServerInterceptor defaults wrapper ctx req info handler w) in
  w2 = snd (sentry.hub_RecoverWithContext hub ctx' r w1) /\
  w_log w2 = w_log w1 /\
  forall s cl, hubs w1 !! hub = Some s -> hub_client s = Some cl ->
    w_events w2 =
      (w_events w1 ++
       [mkEvent hub (ExcPanic r) (hub_scope s) (mjoin (head (w_transport w1)))])%list.
Proof.
  intros Hs Hh w2. subst w2.
  rewrite (unary_run _ _ _ _ _ _ _ _ _ _ Hs), Hh. cbn.
  split; [reflexivity|].
  unfold sentry.hub_RecoverWithContext, sentry.capture_recovered. split.
  - by destruct (hubs w1 !! hub) as [s|]; [destruct (hub_client s)|].
  - by intros s cl -> ->.
Qed.

Lemma unary_panic_is_reported_on_session_witness :
  let w := enabled_world [enabled_hub] [Some "abc"] in
  let w2 := snd (UnaryServerInterceptor report_always enabled_reporter
                   session_context None sample_unary_info panicking_unary w) in
  session_attached session_context w 1 session_context w /\
  panicking_unary session_context None w = (Panicked (PVString "handler failed"), w) /\
  w2 = snd (sentry.hub_RecoverWithContext 1 session_context
              (PVString "handler failed") w) /\
  w_log w2 = w_log w /\
  forall s cl, hubs w !! 1 = Some s -> hub_client s = Some cl ->
    w_events w2 =
      (w_events w ++
       [mkEvent 1 (ExcPanic (PVString "handler failed")) (hub_scope s)
                (mjoin (head (w_transport w)))])%list.
Proof.
  cbv zeta. split; [repeat split|]. split; [reflexivity|].
  apply (unary_panic_is_reported_on_session report_always enabled_reporter
           session_context None sample_unary_info panicking_unary
           (enabled_world [enabled_hub] [Some "abc"]) 1 session_context
           (enabled_world [enabled_hub] [Some "abc"])
           (PVString "handler failed")
           (enabled_world [enabled_hub] [Some "abc"]));
    [repeat split | reflexivity].
Defined.

(** X18.  A streaming call whose handler panics, whatever the panic value
    and the state of the SDK: the interceptor reports the panic value on
    the call's session and answers the call with a nil error. *)
Theorem stream_panic_is_reported_and_dropped (defaults : sentryWrapper.Options)
    (wrapper : Sentry) (srv : grpc.any) (stream : grpc.ServerStream)
    (info : grpc.StreamServerInfo) (handler : grpc.StreamHandler) (w : World)
    (hub : HubRef) (ctx' : Context) (w' : World) (r : PanicValue) (w1 : World) :
  session_attached (grpc.stream_Context stream) w hub ctx' w' ->
  handler srv (grpc.Wrapped stream ctx') w' = (Panicked r, w1) ->
  StreamServerInterceptor defaults wrapper srv stream info handler w =
    (Returned None, snd (sentry.hub_RecoverWithContext hub ctx' r w1)).
Proof.
  intros Hs Hh. rewrite (stream_run _ _ _ _ _ _ _ _ _ _ Hs), Hh. reflexivity.
Qed.

Lemma stream_panic_is_reported_and_dropped_witness :
  let w := enabled_world [] [Some "abc"] in
  let ctx' := sentry.SetHubOnContext bare_context 1 in
  let w' := snd (sentry.hub_Clone CurrentHub w) in
  session_attached (grpc.stream_Context sample_stream) w 1 ctx' w' /\
  panicking_stream None (grpc.Wrapped sample_stream ctx') w'
    = (Panicked (PVString "handler failed"), w') /\
  StreamServerInterceptor report_always enabled_reporter None sample_stream
    sample_stream_info panicking_stream w =
    (Returned None,
     snd (sentry.hub_RecoverWithContext 1 ctx' (PVString "handler failed") w')).
Proof.
  cbv zeta. split; [split; reflexivity|]. split; [reflexivity|].
  apply (stream_panic_is_reported_and_dropped report_always enabled_reporter
           None sample_stream sample_stream_info panicking_stream
           (enabled_world [] [Some "abc"]) 1
           (sentry.SetHubOnContext bare_context 1)
           (snd (sentry.hub_Clone CurrentHub (enabled_world [] [Some "abc"])))
           (PVString "handler failed")
           (snd (sentry.hub_Clone CurrentHub (enabled_world [] [Some "abc"]))));
    [split; reflexivity | reflexivity].
Defined.

(** ** Reporting from inside an intercepted call *)

(** A capture puts on record at most one event, for the hub it is made
    on. *)
Lemma capture_events h x w :
  exists evs,
    w_events (snd (sentry.capture h x w)) = (w_events w ++ evs)%list /\
    Forall (fun ev => ev_hub ev = h) evs.
Proof.
  unfold sentry.capture.
  destruct (hubs w !! h) as [s|]; [destruct (hub_client s)|].
  - eexists [_]. split; [by destruct h|]. by repeat constructor.
  - exists []. by rewrite app_nil_r.
  - exists []. by rewrite app_nil_r.
Qed.

(** X19.  The interceptors and [CaptureWithContext] together: on the
    context an interceptor hands to the handler, [CaptureWithContext] never
    falls back to the process-wide path of [Capture]; every event it puts
    on record is on the call's own session. *)
Theorem CaptureWithContext_in_a_call_uses_the_session (wrapper : Sentry)
    (ctx : Context) (w : World) (hub : HubRef) (ctx' : Context) (w' : World)
    (err : option error) (p : bool) (w0 : World) :
  session_attached ctx w hub ctx' w' ->
  exists evs,
    w_events (snd (CaptureWithContext wrapper ctx' err p w0))
      = (w_events w0 ++ evs)%list /\
    Forall (fun ev => ev_hub ev = hub) evs.
Proof.
  intros Hs. pose proof (session_attached_carries _ _ _ _ _ Hs) as Hc.
  destruct err as [e|]; [|exists []; by rewrite app_nil_r].
  destruct (reports wrapper e) eqn:Hr.
  - rewrite (CaptureWithContext_run _ _ _ _ _ _ Hr Hc).
    unfold sentry.hub_CaptureException.
    destruct (capture_events hub (ExcError (Some e)) w0) as (evs & He & Hf).
    exists evs. split; [|exact Hf].
    destruct (sentry.capture hub (ExcError (Some e)) w0) as [[[id|]|r] w1];
      exact He.
  - rewrite CaptureWithContext_local by exact Hr.
    exists []. by rewrite app_nil_r.
Qed.

Lemma CaptureWithContext_in_a_call_uses_the_session_witness :
  let w := enabled_world [] [Some "abc"] in
  let ctx' := sentry.SetHubOnContext bare_context 1 in
  let w' := snd (sentry.hub_Clone CurrentHub w) in
  session_attached bare_context w 1 ctx' w' /\
  exists evs,
    w_events (snd (CaptureWithContext enabled_reporter ctx' (Some boom) false w'))
      = (w_events w' ++ evs)%list /\
    Forall (fun ev => ev_hub ev = 1) evs.
Proof.
  cbv zeta. split; [split; reflexivity|].
  apply (CaptureWithContext_in_a_call_uses_the_session enabled_reporter
           bare_context (enabled_world [] [Some "abc"]) 1
           (sentry.SetHubOnContext bare_context 1)
           (snd (sentry.hub_Clone CurrentHub (enabled_world [] [Some "abc"])))
           (Some boom) false
           (snd (sentry.hub_Clone CurrentHub (enabled_world [] [Some "abc"])))).
  split; reflexivity.
Defined.
